(** * DXC_Analytics: the aggregation pipeline of the analytics dashboard

    A shallow embedding of [DXC_Analytics.py].  The script fetches the rows of
    the [live_dispatches] table into a pandas DataFrame, normalises three
    columns in place, and derives a handful of summary tables that are handed
    to the charting layer.  The embedding keeps the script's names and follows
    its order: pre-processing, Monthly Breakdown, Monthly Trend Analysis,
    Average Ticket Count per Site & Month, Subtype & Site Breakdown.

    Conventions.
    - A DataFrame is the list of its rows, in row order.  A cell of an
      [object] column is modelled by what the JSON payload can hold there
      (null, a string, a number) plus what the script stores back into it.
    - pandas floats are modelled by exact rationals [Q]; averages are kept in
      lowest terms ([Qred]) so that tables can be compared with [=].
    - A Python exception is the [None] of an [option] result. *)

From stdpp Require Import gmap strings.
From Stdlib Require Import List ZArith QArith Qreduction String Ascii Bool Lia.
From Stdlib Require Import Sorted OrderedTypeEx.
Import ListNotations.

Local Open Scope string_scope.
Local Open Scope Z_scope.

(** ** Cells, rows and frames *)

(** A pandas [Timestamp]: calendar date and the time of day in nanoseconds. *)
Record Timestamp : Type := mkTimestamp {
  ts_year : Z;
  ts_month : Z;
  ts_day : Z;
  ts_nanos : Z
}.

(** A cell of the [CheckInDate] column: JSON null (pandas [None]/[NaT]), the
    server-provided string, or the [Timestamp] that [pd.to_datetime] stores. *)
Inductive date_cell : Type :=
| DateNull
| DateText (s : string)
| DateStamp (t : Timestamp).

(** A cell of the [Hours] column: absent or null ([None]/[NaN]), a string, or
    a number. *)
Inductive hours_cell : Type :=
| HoursNull
| HoursText (s : string)
| HoursNum (q : Q).

(** One row of [dispatches_df].  [Site], [Subtype] and [Item] are labels that
    may be null; [month_year_str] is the column the script adds ([None] while
    the column does not exist yet). *)
Record Row : Type := mkRow {
  CheckInDate : date_cell;
  Hours : hours_cell;
  Site : option string;
  Subtype : option string;
  Item : option string;
  month_year_str : option string
}.

Definition DataFrame : Type := list Row.

(** [df.empty] *)
Definition df_empty (df : DataFrame) : bool :=
  match df with [] => true | _ :: _ => false end.

(** ** Formatting of periods and labels *)

Definition digit (d : Z) : ascii := ascii_of_nat (48 + Z.to_nat (d mod 10)).

Definition two_digits (n : Z) : string :=
  String (digit (n / 10)) (String (digit n) EmptyString).

Definition four_digits (n : Z) : string :=
  String (digit (n / 1000)) (String (digit (n / 100)) (two_digits n)).

(** [str(Period(t, 'M'))], e.g. ["2024-01"]. *)
Definition period_M_str (t : Timestamp) : string :=
  four_digits (ts_year t) ++ "-" ++ two_digits (ts_month t).

(** [t.strftime('%m/%y')] *)
Definition strftime_m_y (t : Timestamp) : string :=
  two_digits (ts_month t) ++ "/" ++ two_digits (ts_year t mod 100).

(** The value of a date cell once the column has dtype [datetime64]:
    [None] is [NaT]. *)
Definition stamp (c : date_cell) : option Timestamp :=
  match c with
  | DateStamp t => Some t
  | DateNull | DateText _ => None
  end.

(** [.dt.to_period('M').astype(str)] on one cell; [NaT] prints as ["NaT"]. *)
Definition to_period_M_str (c : date_cell) : string :=
  match stamp c with
  | Some t => period_M_str t
  | None => "NaT"
  end.

(** ** Pre-processing (lines 35-41) *)

Section Normalize.

(** The two parsers of pandas are parameters of the development.
    [datetime_of_string s] is what [pd.to_datetime] does on a string:
    [None] when it raises, [Some None] for [NaT], [Some (Some t)] otherwise.
    pandas settles on one format for the whole column, so the parser is the
    one of the column at hand: it is chosen per frame, not once for all
    strings.
    [number_of_string s] is the finite number [pd.to_numeric] reads from a
    string, [None] when the string is not numeric. *)
Variable datetime_of_string : string -> option (option Timestamp).
Variable number_of_string : string -> option Q.

(** [pd.to_datetime] on one cell (default [errors='raise']). *)
Definition to_datetime (c : date_cell) : option date_cell :=
  match c with
  | DateNull => Some DateNull
  | DateStamp t => Some (DateStamp t)
  | DateText s =>
      match datetime_of_string s with
      | Some (Some t) => Some (DateStamp t)
      | Some None => Some DateNull
      | None => None
      end
  end.

(** [pd.to_numeric(..., errors='coerce')] on one cell. *)
Definition to_numeric_coerce (c : hours_cell) : hours_cell :=
  match c with
  | HoursNull => HoursNull
  | HoursNum q => HoursNum q
  | HoursText s =>
      match number_of_string s with
      | Some q => HoursNum q
      | None => HoursNull
      end
  end.

(** [.fillna(0)] on one cell. *)
Definition fillna0 (c : hours_cell) : hours_cell :=
  match c with
  | HoursNull => HoursNum 0%Q
  | HoursText s => HoursText s
  | HoursNum q => HoursNum q
  end.

(** Line 35: [dispatches_df['CheckInDate'] = pd.to_datetime(...)]. *)
Definition set_CheckInDate (r : Row) : option Row :=
  match to_datetime (CheckInDate r) with
  | Some d =>
      Some {| CheckInDate := d; Hours := Hours r; Site := Site r;
              Subtype := Subtype r; Item := Item r;
              month_year_str := month_year_str r |}
  | None => None
  end.

Fixpoint convert_dates (df : DataFrame) : option DataFrame :=
  match df with
  | [] => Some []
  | r :: df' =>
      match set_CheckInDate r, convert_dates df' with
      | Some r', Some df'' => Some (r' :: df'')
      | _, _ => None
      end
  end.

(** Line 38: the [Hours] column, or the all-zero default when it is absent,
    coerced to numbers with nulls filled by 0.  An absent column and a null
    cell are both [HoursNull] here and both end as 0. *)
Definition set_Hours (r : Row) : Row :=
  {| CheckInDate := CheckInDate r;
     Hours := fillna0 (to_numeric_coerce (Hours r));
     Site := Site r; Subtype := Subtype r; Item := Item r;
     month_year_str := month_year_str r |}.

(** Line 41: the [month_year_str] column. *)
Definition set_month_year_str (r : Row) : Row :=
  {| CheckInDate := CheckInDate r; Hours := Hours r;
     Site := Site r; Subtype := Subtype r; Item := Item r;
     month_year_str := Some (to_period_M_str (CheckInDate r)) |}.

(** The whole pre-processing pass. *)
Definition normalize (df : DataFrame) : option DataFrame :=
  match convert_dates df with
  | Some df' => Some (map set_month_year_str (map set_Hours df'))
  | None => None
  end.

End Normalize.

(** ** pandas primitives used by the aggregations *)

(** Python compares strings by code point; on the UTF-8 bytes of a Rocq
    [string] that is the lexicographic order of [String.compare]. *)
Definition pair_eqb (a b : string * string) : bool :=
  String.eqb (fst a) (fst b) && String.eqb (snd a) (snd b).

Definition pair_ltb (a b : string * string) : bool :=
  String.ltb (fst a) (fst b)
  || (String.eqb (fst a) (fst b) && String.ltb (snd a) (snd b)).

Section GroupBy.

Context {K R : Type}.
Variable eqb_key : K -> K -> bool.
Variable ltb_key : K -> K -> bool.

(** Insertion into an ascending list without duplicates. *)
Fixpoint insert_key (k : K) (ks : list K) : list K :=
  match ks with
  | [] => [k]
  | k' :: ks' =>
      if eqb_key k k' then ks
      else if ltb_key k k' then k :: ks
      else k' :: insert_key k ks'
  end.

(** The group keys of [groupby(..., sort=True)]: distinct, ascending. *)
Definition sorted_keys (ks : list K) : list K :=
  fold_right insert_key [] ks.

Definition has_key (key : R -> option K) (k : K) (r : R) : bool :=
  match key r with
  | Some k' => eqb_key k k'
  | None => false
  end.

(** [df.groupby(key)] with the defaults [sort=True, dropna=True]: one group
    per distinct non-null key, groups in ascending key order, the rows of a
    group in frame order.  Rows whose key is null belong to no group. *)
Definition groupby (key : R -> option K) (df : list R) : list (K * list R) :=
  map (fun k => (k, filter (has_key key k) df))
      (sorted_keys (omap key df)).

(** The number of rows of the group of [k] that satisfy [P]. *)
Definition group_count (key : R -> option K) (P : R -> bool)
  (df : list R) (k : K) : nat :=
  List.length (filter P (filter (has_key key k) df)).

End GroupBy.

(** [notna] on a date cell. *)
Definition notna_date (c : date_cell) : bool :=
  match c with
  | DateNull => false
  | DateText _ | DateStamp _ => true
  end.

(** The aggregation [('CheckInDate', 'count')]: the number of rows of the group
    whose [CheckInDate] is not null. *)
Definition count_CheckInDate (g : DataFrame) : nat :=
  List.length (filter (fun r => notna_date (CheckInDate r)) g).

Definition hours_value (c : hours_cell) : option Q :=
  match c with
  | HoursNum q => Some q
  | HoursNull | HoursText _ => None
  end.

Definition Qsum (l : list Q) : Q := fold_right Qplus 0%Q l.

(** [Series.mean()]: nulls are skipped, the mean of nothing is [NaN]
    (here [None]).  The quotient is exact, where pandas rounds to a double. *)
Definition mean (l : list Q) : option Q :=
  match l with
  | [] => None
  | _ :: _ => Some (Qred (Qsum l / inject_Z (Z.of_nat (List.length l))))
  end.

Definition mean_Hours (g : DataFrame) : option Q :=
  mean (omap (fun r => hours_value (Hours r)) g).

Definition Qnat (n : nat) : Q := inject_Z (Z.of_nat n).

(** [df[df['month_year_str'] == m]] *)
Definition month_is (m : string) (r : Row) : bool :=
  match month_year_str r with
  | Some m' => String.eqb m' m
  | None => false
  end.

(** ** Monthly Breakdown (lines 46-76) *)

(** Line 46: [sorted(dispatches_df['month_year_str'].unique(), reverse=True)]. *)
Definition breakdown_month_options (df : DataFrame) : list string :=
  rev (sorted_keys String.eqb String.ltb (omap month_year_str df)).

Definition selected_breakdown_df (df : DataFrame) (month : string) : DataFrame :=
  filter (month_is month) df.

Definition total_tickets (df : DataFrame) (month : string) : nat :=
  List.length (selected_breakdown_df df month).

Definition avg_time_to_close (df : DataFrame) (month : string) : option Q :=
  mean_Hours (selected_breakdown_df df month).

Definition tickets_per_site (df : DataFrame) (month : string)
  : list (string * nat) :=
  map (fun kg => (fst kg, count_CheckInDate (snd kg)))
      (groupby String.eqb String.ltb Site (selected_breakdown_df df month)).

Record Breakdown : Type := mkBreakdown {
  count : nat;
  avgHours : option Q;
  perSiteCounts : list (string * nat)
}.

Definition monthlyBreakdown (df : DataFrame) (month : string) : Breakdown :=
  {| count := total_tickets df month;
     avgHours := avg_time_to_close df month;
     perSiteCounts := tickets_per_site df month |}.

(** ** Monthly Trend Analysis (lines 96-102) *)

Definition is_leap (y : Z) : bool :=
  (y mod 4 =? 0) && (negb (y mod 100 =? 0) || (y mod 400 =? 0)).

Definition days_in_month (y m : Z) : Z :=
  if m =? 2 then (if is_leap y then 29 else 28)
  else if (m =? 4) || (m =? 6) || (m =? 9) || (m =? 11) then 30
  else 31.

(** Months are numbered consecutively: [12 * year + (month - 1)]. *)
Definition month_index (t : Timestamp) : Z := ts_year t * 12 + (ts_month t - 1).

(** The label of a [freq='ME'] bin: midnight of the last day of the month. *)
Definition month_end (i : Z) : Timestamp :=
  {| ts_year := i / 12; ts_month := i mod 12 + 1;
     ts_day := days_in_month (i / 12) (i mod 12 + 1); ts_nanos := 0 |}.

Definition in_month (i : Z) (r : Row) : bool :=
  match stamp (CheckInDate r) with
  | Some t => month_index t =? i
  | None => false
  end.

Record TrendRow : Type := mkTrendRow {
  trend_CheckInDate : Timestamp;
  trend_total_tickets : nat;
  trend_avg_hours : option Q;
  month_label : string
}.

Definition trend_bin (df : DataFrame) (i : Z) : TrendRow :=
  let g := filter (in_month i) df in
  {| trend_CheckInDate := month_end i;
     trend_total_tickets := count_CheckInDate g;
     trend_avg_hours := mean_Hours g;
     month_label := strftime_m_y (month_end i) |}.

Definition dated_months (df : DataFrame) : list Z :=
  omap (fun r => option_map month_index (stamp (CheckInDate r))) df.

(** [df.groupby(pd.Grouper(key='CheckInDate', freq='ME'))]: rows without a
    date are dropped; the bins are the consecutive month ends from the month
    of the earliest date to the month of the latest one, empty bins
    included.  With no dated row at all there is no range and pandas raises;
    [monthly_data_checked] below has that case, here the list is empty. *)
Definition month_bins (df : DataFrame) : list Z :=
  match dated_months df with
  | [] => []
  | i :: rest =>
      let lo := fold_right Z.min i rest in
      let hi := fold_right Z.max i rest in
      map (fun k => lo + Z.of_nat k) (seq 0 (Z.to_nat (hi - lo + 1)))
  end.

Definition monthly_data (df : DataFrame) : list TrendRow :=
  map (trend_bin df) (month_bins df).

Definition monthlyTrend : DataFrame -> list TrendRow := monthly_data.

(** ** Average Ticket Count per Site & Month (lines 137-165) *)

Definition site_month_key (r : Row) : option (string * string) :=
  match Site r, month_year_str r with
  | Some s, Some m => Some (s, m)
  | _, _ => None
  end.

(** First stage: one row per (site, month) with its ticket count. *)
Definition tickets_per_site_per_month (df : DataFrame)
  : list ((string * string) * nat) :=
  map (fun kg => (fst kg, count_CheckInDate (snd kg)))
      (groupby pair_eqb pair_ltb site_month_key df).

(** Second stage: the mean of the [count] column per site. *)
Definition avg_tickets_by_site (df : DataFrame) : list (string * option Q) :=
  map (fun kg => (fst kg, mean (map (fun x => Qnat (snd x)) (snd kg))))
      (groupby String.eqb String.ltb
               (fun x : (string * string) * nat => Some (fst (fst x)))
               (tickets_per_site_per_month df)).

Definition siteMonthlyAverage : DataFrame -> list (string * option Q) :=
  avg_tickets_by_site.

Definition tickets_by_month (df : DataFrame) : list (string * nat) :=
  map (fun kg => (fst kg, count_CheckInDate (snd kg)))
      (groupby String.eqb String.ltb month_year_str df).

(** ** Subtype & Site Breakdown (lines 187-283) *)

Definition notna {A : Type} (o : option A) : bool :=
  match o with Some _ => true | None => false end.

(** Line 187: [dispatches_df.dropna(subset=['Subtype', 'Item'])]. *)
Definition filtered_tickets (df : DataFrame) : DataFrame :=
  filter (fun r => notna (Subtype r) && notna (Item r)) df.

Definition All_Tickets : string := "All Tickets".
Definition All_Subtypes : string := "All Subtypes".

(** Line 190 *)
Definition pie_month_options (df : DataFrame) : list string :=
  All_Tickets
    :: sorted_keys String.eqb String.ltb
         (omap month_year_str (filtered_tickets df)).

(** Lines 194-197 *)
Definition monthly_filtered_data (df : DataFrame) (selected : string)
  : DataFrame :=
  if negb (String.eqb selected All_Tickets)
  then filter (month_is selected) (filtered_tickets df)
  else filtered_tickets df.

(** Lines 201-203 *)
Definition data_to_chart_subtype (df : DataFrame) (selected : string)
  : list (string * nat) :=
  map (fun kg => (fst kg, count_CheckInDate (snd kg)))
      (groupby String.eqb String.ltb Subtype (monthly_filtered_data df selected)).

Definition subtypeBreakdown : DataFrame -> string -> list (string * nat) :=
  data_to_chart_subtype.

(** Line 236 *)
Definition subtype_options (df : DataFrame) (selected : string) : list string :=
  All_Subtypes
    :: sorted_keys String.eqb String.ltb
         (map fst (data_to_chart_subtype df selected)).

Definition subtype_is (s : string) (r : Row) : bool :=
  match Subtype r with
  | Some s' => String.eqb s' s
  | None => false
  end.

(** Line 256 *)
Definition filtered_by_subtype (df : DataFrame) (month subtype : string)
  : DataFrame :=
  filter (subtype_is subtype) (monthly_filtered_data df month).

(** Lines 260-262 *)
Definition site_breakdown (df : DataFrame) (month subtype : string)
  : list (string * nat) :=
  map (fun kg => (fst kg, count_CheckInDate (snd kg)))
      (groupby String.eqb String.ltb Site (filtered_by_subtype df month subtype)).

(** What the right column shows (lines 254-283). *)
Inductive SitePanel : Type :=
| SiteChart (table : list (string * nat))
| SiteInfo (message : string).

Definition site_panel (df : DataFrame) (month subtype : string) : SitePanel :=
  if negb (String.eqb subtype All_Subtypes) then
    if negb (df_empty (filtered_by_subtype df month subtype))
    then SiteChart (site_breakdown df month subtype)
    else SiteInfo "No site data found for this subtype."
  else
    SiteInfo "Select a subtype from the dropdown or the pie chart to view the Site Breakdown.".

(** [siteBreakdownForSubtype]: the table, or [None] for the "no data" signal. *)
Definition siteBreakdownForSubtype (df : DataFrame) (subtype month : string)
  : option (list (string * nat)) :=
  if df_empty (filtered_by_subtype df month subtype) then None
  else Some (site_breakdown df month subtype).

(** ** Session state and widgets *)

(** The values [st.session_state] holds in this script: [None], the string a
    keyed selectbox stores, or a selection object mapping field names to the
    selected values. *)
Inductive session_value : Type :=
| SessNone
| SessText (s : string)
| SessPoints (fields : list (string * list (option string))).

(** One browser session: [st.session_state], and the value of the selectbox
    that has no key (its state lives in the widget, not in
    [st.session_state]). *)
Record Session : Type := mkSession {
  session_state : gmap string session_value;
  pie_month_widget : option string
}.

Definition new_session : Session :=
  {| session_state := ∅; pie_month_widget := None |}.

(** Lines 16-17 *)
Definition init_selection (st : gmap string session_value)
  : gmap string session_value :=
  match st !! "selection" with
  | Some _ => st
  | None => <["selection" := SessNone]> st
  end.

(** Python truthiness *)
Definition truthy (v : session_value) : bool :=
  match v with
  | SessNone => false
  | SessText s => negb (String.eqb s "")
  | SessPoints fields => negb (match fields with [] => true | _ => false end)
  end.

Fixpoint dict_get {V : Type} (k : string) (d : list (string * V)) : option V :=
  match d with
  | [] => None
  | (k', v) :: d' => if String.eqb k k' then Some v else dict_get k d'
  end.

(** Lines 231-233.  The outer [None] is an exception ([AttributeError] or
    [IndexError]); the inner option is the Python value, [None] included. *)
Definition selected_subtype_from_chart (st : gmap string session_value)
  : option (option string) :=
  if decide (st = ∅) then Some None
  else
    match st !! "selection" with
    | None => None
    | Some v =>
        if truthy v then
          match v with
          | SessPoints fields =>
              match dict_get "Subtype" fields with
              | Some (x :: _) => Some x
              | Some [] => None
              | None => Some None
              end
          | SessText _ | SessNone => None
          end
        else Some None
    end.

Fixpoint list_index (s : string) (l : list string) : nat :=
  match l with
  | [] => 0
  | x :: l' => if String.eqb x s then 0 else S (list_index s l')
  end.

Definition mem_string (s : string) (l : list string) : bool :=
  existsb (String.eqb s) l.

(** Lines 239-241 *)
Definition initial_index (from_chart : option string) (options : list string)
  : nat :=
  match from_chart with
  | Some s =>
      if negb (String.eqb s "") && mem_string s options
      then list_index s options
      else 0%nat
  | None => 0%nat
  end.

(** [st.selectbox(label, options, index=i)]: the value the user last chose in
    this widget when it is still one of the options, else [options[i]];
    [None] when there is no such option. *)
Definition selectbox (options : list string) (index : nat)
  (chosen : option string) : option string :=
  match chosen with
  | Some v => if mem_string v options then Some v else nth_error options index
  | None => nth_error options index
  end.

Definition widget_value (st : gmap string session_value) (key : string)
  : option string :=
  match st !! key with
  | Some (SessText s) => Some s
  | _ => None
  end.

(** [st.altair_chart(chart, on_select=..., key=...)].  With the default
    [on_select="ignore"] the chart is not an input widget: a click is handled
    in the browser and nothing reaches the session.  With [on_select="rerun"]
    and a key, the selection is stored under that key. *)
Inductive on_select_mode : Type :=
| on_select_ignore
| on_select_rerun.

Definition chart_click (on_select : on_select_mode) (key : option string)
  (fields : list (string * list (option string)))
  (st : gmap string session_value) : gmap string session_value :=
  match on_select, key with
  | on_select_rerun, Some k => <[k := SessPoints fields]> st
  | _, _ => st
  end.

(** Line 228 passes neither [on_select] nor [key]. *)
Definition pie_on_select : on_select_mode := on_select_ignore.
Definition pie_key : option string := None.

(** A keyed selectbox keeps the value it shows in [st.session_state]. *)
Definition keep_widget (key value : string) (st : gmap string session_value)
  : gmap string session_value :=
  <[key := SessText value]> st.

(** What the user can do between two runs of the script: pick a value in one
    of the three selectboxes, or click a slice of the pie chart. *)
Inductive Event : Type :=
| PickBreakdownMonth (month : string)
| PickPieMonth (month : string)
| PickSubtype (subtype : string)
| ClickPie (subtype : string).

Definition handle (e : Event) (s : Session) : Session :=
  match e with
  | PickBreakdownMonth m =>
      {| session_state := keep_widget "breakdown_month_selector" m (session_state s);
         pie_month_widget := pie_month_widget s |}
  | PickPieMonth m =>
      {| session_state := session_state s; pie_month_widget := Some m |}
  | PickSubtype t =>
      {| session_state := keep_widget "subtype_select_box" t (session_state s);
         pie_month_widget := pie_month_widget s |}
  | ClickPie t =>
      {| session_state :=
           chart_click pie_on_select pie_key [("Subtype", [Some t])]
                       (session_state s);
         pie_month_widget := pie_month_widget s |}
  end.

(** ** The script as a whole *)

Record View : Type := mkView {
  view_breakdown_month : string;
  view_breakdown : Breakdown;
  view_monthly_data : list TrendRow;
  view_avg_tickets_by_site : list (string * option Q);
  view_tickets_by_month : list (string * nat);
  view_pie_month : string;
  view_pie : list (string * nat);
  view_subtype_options : list string;
  view_initial_index : nat;
  view_selected_subtype : string;
  view_site_panel : SitePanel
}.

(** What one run of the script leaves on the page: an uncaught exception, the
    warning of the [else] branch, or the five sections. *)
Inductive Outcome : Type :=
| Raised
| Warned (message : string)
| Rendered (v : View).

Definition no_data_warning : string :=
  "No data found in the `live_dispatches` table. Please check your database connection and table name.".

(** Line 96 as the script runs it: with no timestamp at all in [CheckInDate]
    the grouper has no range to bin and [groupby] raises; otherwise the table
    is [monthly_data]. *)
Definition monthly_data_checked (df : DataFrame) : option (list TrendRow) :=
  if existsb (fun r => notna (stamp (CheckInDate r))) df
  then Some (monthly_data df)
  else None.

Section Script.

Variable datetime_of_string : string -> option (option Timestamp).
Variable number_of_string : string -> option Q.

(** The body of [if not dispatches_df.empty:] after pre-processing, in the
    order of the source: the month selectbox (line 47), the trend table
    (line 96), the pie's month selectbox (line 191), the chart selection
    (lines 231-233) and the subtype selectbox (line 244).  Each keyed
    selectbox leaves the value it shows in the session.  A selectbox only
    returns [None] when it has no options, which the script does not expect;
    those branches are [Raised]. *)
Definition render (s : Session) (df : DataFrame) : Session * Outcome :=
  let st := session_state s in
  match selectbox (breakdown_month_options df) 0
                  (widget_value st "breakdown_month_selector") with
  | None => (s, Raised)
  | Some selected_breakdown_month =>
      let st1 := keep_widget "breakdown_month_selector" selected_breakdown_month st in
      let s1 := {| session_state := st1; pie_month_widget := pie_month_widget s |} in
      match monthly_data_checked df with
      | None => (s1, Raised)
      | Some trend =>
          match selectbox (pie_month_options df) 0 (pie_month_widget s) with
          | None => (s1, Raised)
          | Some selected_breakdown_month_pie =>
              let s2 := {| session_state := st1;
                           pie_month_widget := Some selected_breakdown_month_pie |} in
              match selected_subtype_from_chart st1 with
              | None => (s2, Raised)
              | Some from_chart =>
                  let options := subtype_options df selected_breakdown_month_pie in
                  let index := initial_index from_chart options in
                  match selectbox options index
                                  (widget_value st1 "subtype_select_box") with
                  | None => (s2, Raised)
                  | Some selected_subtype =>
                      ({| session_state :=
                            keep_widget "subtype_select_box" selected_subtype st1;
                          pie_month_widget := Some selected_breakdown_month_pie |},
                       Rendered
                         {| view_breakdown_month := selected_breakdown_month;
                            view_breakdown :=
                              monthlyBreakdown df selected_breakdown_month;
                            view_monthly_data := trend;
                            view_avg_tickets_by_site := avg_tickets_by_site df;
                            view_tickets_by_month := tickets_by_month df;
                            view_pie_month := selected_breakdown_month_pie;
                            view_pie :=
                              data_to_chart_subtype df selected_breakdown_month_pie;
                            view_subtype_options := options;
                            view_initial_index := index;
                            view_selected_subtype := selected_subtype;
                            view_site_panel :=
                              site_panel df selected_breakdown_month_pie
                                         selected_subtype |})
                  end
              end
          end
      end
  end.

(** One run of the script on the rows [fetch_data()] returned. *)
Definition script (s : Session) (fetched : DataFrame) : Session * Outcome :=
  let s' := {| session_state := init_selection (session_state s);
               pie_month_widget := pie_month_widget s |} in
  if negb (df_empty fetched) then
    match normalize datetime_of_string number_of_string fetched with
    | Some df => render s' df
    | None => (s', Raised)
    end
  else (s', Warned no_data_warning).

(** A browsing session: the first load, then one rerun per user event, each
    on freshly fetched rows.  The result is the session state and the page
    after the last run. *)
Fixpoint browse (now : Session * Outcome) (trace : list (Event * DataFrame))
  : Session * Outcome :=
  match trace with
  | [] => now
  | (e, fetched) :: trace' => browse (script (handle e (fst now)) fetched) trace'
  end.

Definition session_run (first : DataFrame) (trace : list (Event * DataFrame))
  : Session * Outcome :=
  browse (script new_session first) trace.

End Script.

(** ** Two concrete parsers, for scenarios *)

Definition digit_value (c : ascii) : option Z :=
  let n := Z.of_nat (nat_of_ascii c) in
  if (48 <=? n) && (n <=? 57) then Some (n - 48) else None.

Fixpoint decimal_value (acc : Z) (s : string) : option Z :=
  match s with
  | EmptyString => Some acc
  | String c s' =>
      match digit_value c with
      | Some d => decimal_value (10 * acc + d) s'
      | None => None
      end
  end.

Definition natural_of_string (s : string) : option Z :=
  match s with
  | EmptyString => None
  | String _ _ => decimal_value 0 s
  end.

(** ISO dates [YYYY-MM-DD]; the empty string is [NaT]; anything else is taken
    to raise. *)
Definition iso_date_of_string (s : string) : option (option Timestamp) :=
  if String.eqb s "" then Some None
  else if negb (Nat.eqb (String.length s) 10) then None
  else if negb (String.eqb (substring 4 1 s) "-" && String.eqb (substring 7 1 s) "-") then None
  else
    match natural_of_string (substring 0 4 s),
          natural_of_string (substring 5 2 s),
          natural_of_string (substring 8 2 s) with
    | Some y, Some m, Some d =>
        if (1 <=? m) && (m <=? 12) && (1 <=? d) && (d <=? days_in_month y m)
        then Some (Some {| ts_year := y; ts_month := m; ts_day := d; ts_nanos := 0 |})
        else None
    | _, _, _ => None
    end.

(** Unsigned decimal integers; anything else is not a number. *)
Definition integer_of_string (s : string) : option Q :=
  option_map inject_Z (natural_of_string s).

(** ** Definitions used to state the properties *)

(** The sum of the count column of a table. *)
Definition sum_counts {K : Type} (table : list (K * nat)) : nat :=
  list_sum (map snd table).

(** The distinct elements of a list in the order of their first occurrence. *)
Fixpoint first_seen (l : list string) : list string :=
  match l with
  | [] => []
  | x :: l' => x :: filter (fun y => negb (String.eqb x y)) (first_seen l')
  end.

Definition string_lt (a b : string) : Prop := String.ltb a b = true.

(** Chronological order of timestamps. *)
Definition ts_lt (a b : Timestamp) : Prop :=
  ts_year a < ts_year b
  \/ (ts_year a = ts_year b
      /\ (ts_month a < ts_month b
          \/ (ts_month a = ts_month b
              /\ (ts_day a < ts_day b
                  \/ (ts_day a = ts_day b /\ ts_nanos a < ts_nanos b))))).

(** The number a normalised [Hours] cell holds, read off the raw cell. *)
Definition numeric_or_zero (number_of_string : string -> option Q)
  (c : hours_cell) : Q :=
  match c with
  | HoursNum q => q
  | HoursText s =>
      match number_of_string s with
      | Some q => q
      | None => 0%Q
      end
  | HoursNull => 0%Q
  end.

Definition dated (r : Row) : bool := notna_date (CheckInDate r).

(** ** Sample records *)

(** A fetched row: the date as the server sends it, no [month_year_str] yet. *)
Definition fetched_row (date : string) (hours : hours_cell)
  (site subtype item : option string) : Row :=
  {| CheckInDate := DateText date; Hours := hours; Site := site;
     Subtype := subtype; Item := item; month_year_str := None |}.

(** The records of the spec's scenario. *)
Definition scenario_records : DataFrame :=
  [ fetched_row "2024-01-05" (HoursNum 2) (Some "A") None None;
    fetched_row "2024-01-20" (HoursText "bad") (Some "A") None None;
    fetched_row "2024-02-01" (HoursNum 4) (Some "B") None None ].

(** One ticket whose site is null. *)
Definition siteless_records : DataFrame :=
  [ fetched_row "2024-01-05" (HoursNum 1) None None None ].

(** Site "B" is seen before site "A". *)
Definition b_then_a_records : DataFrame :=
  [ fetched_row "2024-01-05" (HoursNum 1) (Some "B") None None;
    fetched_row "2024-01-06" (HoursNum 1) (Some "A") None None ].

(** Pre-processing with the two concrete parsers. *)
Definition normalize_iso : DataFrame -> option DataFrame :=
  normalize iso_date_of_string integer_of_string.

(** A row as the pre-processing pass leaves it: numeric hours, a converted
    date, and the month string of that date. *)
Definition normalized_row (r : Row) : bool :=
  match Hours r with HoursNum _ => true | _ => false end
  && match CheckInDate r with DateText _ => false | _ => true end
  && match month_year_str r with
     | Some m => String.eqb m (to_period_M_str (CheckInDate r))
     | None => false
     end.

(** One ticket with a negative number of hours. *)
Definition negative_hours_records : DataFrame :=
  [ fetched_row "2024-01-05" (HoursNum (-3)) (Some "A") None None ].

(** The month selection of the Subtype & Site Breakdown section: every row for
    'All Tickets', the rows of the chosen month otherwise. *)
Definition in_selection (selected : string) (r : Row) : bool :=
  String.eqb selected All_Tickets || month_is selected r.

(** A row as it stands after pre-processing. *)
Definition stored_row (y m d : Z) (hours : Q)
  (site subtype item : option string) : Row :=
  {| CheckInDate := DateStamp (mkTimestamp y m d 0); Hours := HoursNum hours;
     Site := site; Subtype := subtype; Item := item;
     month_year_str := Some (period_M_str (mkTimestamp y m d 0)) |}.

(** Tickets in January and in March, none in February. *)
Definition gap_records : DataFrame :=
  [ fetched_row "2024-01-05" (HoursNum 1) (Some "A") None None;
    fetched_row "2024-03-07" (HoursNum 2) (Some "A") None None ].

(** The chart-selection slot of a session holds [None] (or is still unset,
    before the first run). *)
Definition selection_unset (st : gmap string session_value) : Prop :=
  st !! "selection" = None \/ st !! "selection" = Some SessNone.

(** What the subtype dropdown shows for a choice held in its own state: that
    choice when it is one of the options, "All Subtypes" otherwise. *)
Definition shown_subtype (choice : option string) (options : list string)
  : string :=
  match choice with
  | Some t => if mem_string t options then t else All_Subtypes
  | None => All_Subtypes
  end.

(** The state of the subtype dropdown once the user's event is handled: the
    subtype picked in the dropdown, or what the dropdown held before for any
    other event, a click on the pie included. *)
Definition dropdown_choice (e : Event) (before : gmap string session_value)
  : option string :=
  match e with
  | PickSubtype t => Some t
  | PickBreakdownMonth _ | PickPieMonth _ | ClickPie _ =>
      widget_value before "subtype_select_box"
  end.

(** After a run: the chart-selection slot holds [None] and nothing is read
    from the chart; if the page was rendered, the subtype selectbox was
    created with index 0 and its own state holds the subtype it shows. *)
Definition dropdown_only (now : Session * Outcome) : Prop :=
  session_state (fst now) !! "selection" = Some SessNone
  /\ selected_subtype_from_chart (session_state (fst now)) = Some None
  /\ match snd now with
     | Rendered v =>
         view_initial_index v = 0%nat
         /\ widget_value (session_state (fst now)) "subtype_select_box"
            = Some (view_selected_subtype v)
     | Raised | Warned _ => True
     end.

(** Fetched tickets with subtypes and items. *)
Definition subtype_records : DataFrame :=
  [ fetched_row "2024-01-05" (HoursNum 1) (Some "A") (Some "Install") (Some "Router");
    fetched_row "2024-01-06" (HoursNum 1) (Some "B") (Some "Repair") (Some "Switch");
    fetched_row "2024-02-01" (HoursNum 1) (Some "A") (Some "Repair") (Some "Router") ].

(** ** The two-stage average, stated per site *)

Definition site_is (s : string) (r : Row) : bool :=
  match Site r with
  | Some s' => String.eqb s s'
  | None => false
  end.

Definition site_rows (df : DataFrame) (s : string) : DataFrame :=
  filter (site_is s) df.

(** The months in which the site has at least one record. *)
Definition site_months (df : DataFrame) (s : string) : list string :=
  sorted_keys String.eqb String.ltb (omap month_year_str (site_rows df s)).

(** The ticket count of one (site, month). *)
Definition site_month_count (df : DataFrame) (s m : string) : nat :=
  count_CheckInDate (filter (month_is m) (site_rows df s)).

(** The site's monthly volumes, one per month in which it has a record. *)
Definition monthly_volumes (df : DataFrame) (s : string) : list nat :=
  map (site_month_count df s) (site_months df s).

(** The mean of the site's monthly volumes. *)
Definition two_stage_mean (df : DataFrame) (s : string) : option Q :=
  mean (map Qnat (monthly_volumes df s)).

(** The sites that have a record with a month. *)
Definition sites_of (df : DataFrame) : list string :=
  sorted_keys String.eqb String.ltb
    (omap (fun r => option_map fst (site_month_key r)) df).

(** The months present in the data. *)
Definition data_months (df : DataFrame) : list string :=
  sorted_keys String.eqb String.ltb (omap month_year_str df).

(** The site's ticket count. *)
Definition site_total (df : DataFrame) (s : string) : nat :=
  count_CheckInDate (site_rows df s).

Definition ratio (a b : nat) : option Q :=
  match b with
  | O => None
  | S _ => Some (Qred (Qnat a / Qnat b))
  end.

(** Following the spec's words, "count/totalMonths": the site's ticket count
    over the number of months present in the data. *)
Definition count_over_total_months (df : DataFrame) (s : string) : option Q :=
  ratio (site_total df s) (List.length (data_months df)).

(** Following the spec's words, the "flat per-record average": every ticket of
    the site carries the ticket count of its (site, month), and these are
    averaged over the tickets in a single pass. *)
Definition flat_record_average (df : DataFrame) (s : string) : option Q :=
  mean (flat_map (fun c => repeat (Qnat c) c) (monthly_volumes df s)).

(** The site has a record in every month present in the data. *)
Definition present_in_every_month (df : DataFrame) (s : string) : Prop :=
  forall m, In m (data_months df) -> In m (site_months df s).

(** The site's monthly volumes are all the same. *)
Definition volumes_equal (df : DataFrame) (s : string) : Prop :=
  forall a b,
    In a (monthly_volumes df s) -> In b (monthly_volumes df s) -> a = b.

(** Sum of squared distances to [x], and over all pairs of a list. *)
Fixpoint sq_dev (x : Z) (l : list Z) : Z :=
  match l with
  | [] => 0
  | c :: l' => (x - c) * (x - c) + sq_dev x l'
  end.

Fixpoint spread (l : list Z) : Z :=
  match l with
  | [] => 0
  | x :: l' => sq_dev x l' + spread l'
  end.

Definition Zsum (l : list Z) : Z := fold_right Z.add 0 l.

(** Site "A" alone: one ticket in January, three in February. *)
Definition uneven_records : DataFrame :=
  [ fetched_row "2024-01-05" (HoursNum 1) (Some "A") None None;
    fetched_row "2024-02-01" (HoursNum 1) (Some "A") None None;
    fetched_row "2024-02-02" (HoursNum 1) (Some "A") None None;
    fetched_row "2024-02-03" (HoursNum 1) (Some "A") None None ].

(** Site "A" has two tickets in January and two in March; site "B" has the
    only ticket of February. *)
Definition absent_even_records : DataFrame :=
  [ fetched_row "2024-01-05" (HoursNum 1) (Some "A") None None;
    fetched_row "2024-01-06" (HoursNum 1) (Some "A") None None;
    fetched_row "2024-02-01" (HoursNum 1) (Some "B") None None;
    fetched_row "2024-03-02" (HoursNum 1) (Some "A") None None;
    fetched_row "2024-03-03" (HoursNum 1) (Some "A") None None ].

(** ** Definitions used to state further properties of the script *)

(** A timestamp whose month prints as ["YYYY-MM"]: a year of four digits and
    a calendar month. *)
Definition four_digit_month (t : Timestamp) : Prop :=
  0 <= ts_year t < 10000 /\ 1 <= ts_month t <= 12.

(** The rows that hold a [Timestamp]. *)
Definition stamped (r : Row) : bool := notna (stamp (CheckInDate r)).


(** The count of a table at a label, 0 when the label has no row. *)
Definition count_at (k : string) (table : list (string * nat)) : nat :=
  match dict_get k table with
  | Some c => c
  | None => 0%nat
  end.

(** The month of a row, as the [freq='ME'] grouper sees it. *)
Definition month_of_row (r : Row) : option Z :=
  option_map month_index (stamp (CheckInDate r)).

(** Every date of the frame has a four-digit year. *)
Definition four_digit_dates (df : DataFrame) : Prop :=
  Forall (fun r => forall t, stamp (CheckInDate r) = Some t -> four_digit_month t) df.

(** The pre-processed [gap_records]. *)
Definition gap_frame : DataFrame :=
  [ stored_row 2024 1 5 1 (Some "A") None None;
    stored_row 2024 3 7 2 (Some "A") None None ].

(** Pre-processed tickets with subtypes; the last "Repair" ticket has no
    site. *)
Definition subtype_frame : DataFrame :=
  [ stored_row 2024 1 5 1 (Some "A") (Some "Install") (Some "Router");
    stored_row 2024 1 6 1 (Some "B") (Some "Repair") (Some "Switch");
    stored_row 2024 2 1 1 (Some "A") (Some "Repair") (Some "Router");
    stored_row 2024 2 2 1 None (Some "Repair") (Some "Router") ].

Definition no_site_data : string := "No site data found for this subtype.".

(** A ticket with a date and one whose date is the empty string. *)
Definition undated_records : DataFrame :=
  [ fetched_row "2024-01-05" (HoursNum 1) (Some "A") None None;
    fetched_row "" (HoursNum 1) (Some "A") None None ].

(** The pre-processed [undated_records]. *)
Definition undated_frame : DataFrame :=
  [ stored_row 2024 1 5 1 (Some "A") None None;
    {| CheckInDate := DateNull; Hours := HoursNum 1; Site := Some "A";
       Subtype := None; Item := None; month_year_str := Some "NaT" |} ].

(** * Properties *)

(** ** The order on labels *)

Lemma string_eqb_refl (a : string) : String.eqb a a = true.
Proof. apply String.eqb_eq. reflexivity. Qed.

Lemma string_ltb_lt (a b : string) :
  String.ltb a b = true <-> String_as_OT.lt a b.
Proof.
  unfold String.ltb. rewrite <- String_as_OT.cmp_lt. unfold String_as_OT.cmp.
  destruct (String.compare a b); split; congruence.
Qed.

Lemma string_ltb_irrefl (a : string) : String.ltb a a = false.
Proof.
  destruct (String.ltb a a) eqn:E; [|reflexivity].
  apply string_ltb_lt in E. exfalso.
  exact (String_as_OT.lt_not_eq a a E Logic.eq_refl).
Qed.

Lemma string_ltb_trans (a b c : string) :
  String.ltb a b = true -> String.ltb b c = true -> String.ltb a c = true.
Proof.
  rewrite !string_ltb_lt. apply String_as_OT.lt_trans.
Qed.

Lemma string_ltb_total (a b : string) :
  String.eqb a b = false -> String.ltb a b = false -> String.ltb b a = true.
Proof.
  intros Hne Hlt. unfold String.ltb in *.
  rewrite String.compare_antisym.
  destruct (String.compare a b) eqn:E; simpl; try reflexivity; try discriminate.
  apply String.compare_eq_iff in E. subst b.
  rewrite string_eqb_refl in Hne. discriminate.
Qed.

Lemma pair_eqb_eq (a b : string * string) : pair_eqb a b = true <-> a = b.
Proof.
  destruct a as [a1 a2], b as [b1 b2]. unfold pair_eqb. simpl.
  rewrite andb_true_iff, !String.eqb_eq. split.
  - intros [-> ->]. reflexivity.
  - intros E. inversion E. auto.
Qed.

Lemma pair_ltb_irrefl (a : string * string) : pair_ltb a a = false.
Proof.
  unfold pair_ltb. rewrite !string_ltb_irrefl, andb_false_r. reflexivity.
Qed.

Lemma pair_ltb_trans (a b c : string * string) :
  pair_ltb a b = true -> pair_ltb b c = true -> pair_ltb a c = true.
Proof.
  destruct a as [a1 a2], b as [b1 b2], c as [c1 c2]. unfold pair_ltb. simpl.
  rewrite !orb_true_iff, !andb_true_iff, !String.eqb_eq.
  intros [H1 | [-> H1]] [H2 | [-> H2]].
  - left. eapply string_ltb_trans; eauto.
  - left. assumption.
  - left. assumption.
  - right. split; [reflexivity|]. eapply string_ltb_trans; eauto.
Qed.

Lemma pair_ltb_total (a b : string * string) :
  pair_eqb a b = false -> pair_ltb a b = false -> pair_ltb b a = true.
Proof.
  destruct a as [a1 a2], b as [b1 b2]. unfold pair_eqb, pair_ltb. simpl.
  intros Hne Hlt. apply orb_false_iff in Hlt. destruct Hlt as [H1 H2].
  destruct (String.eqb a1 b1) eqn:E1.
  - apply String.eqb_eq in E1. subst b1. simpl in *.
    rewrite string_eqb_refl, string_ltb_irrefl. simpl.
    apply string_ltb_total; assumption.
  - rewrite (string_ltb_total _ _ E1 H1). reflexivity.
Qed.

(** ** Group keys and groups *)

Section GroupByFacts.

Context {K : Type}.
Variable eqb_key : K -> K -> bool.
Variable ltb_key : K -> K -> bool.
Hypothesis eqb_key_eq : forall a b, eqb_key a b = true <-> a = b.
Hypothesis ltb_key_irrefl : forall a, ltb_key a a = false.
Hypothesis ltb_key_trans :
  forall a b c, ltb_key a b = true -> ltb_key b c = true -> ltb_key a c = true.
Hypothesis ltb_key_total :
  forall a b, eqb_key a b = false -> ltb_key a b = false -> ltb_key b a = true.

Let key_lt (a b : K) : Prop := ltb_key a b = true.

Lemma In_insert_key (k x : K) (ks : list K) :
  In x (insert_key eqb_key ltb_key k ks) <-> x = k \/ In x ks.
Proof.
  induction ks as [|k' ks IH]; simpl.
  - intuition.
  - destruct (eqb_key k k') eqn:E.
    + apply eqb_key_eq in E. subst k'. simpl. intuition.
    + destruct (ltb_key k k'); simpl; rewrite ?IH; intuition.
Qed.

Lemma In_sorted_keys (x : K) (l : list K) :
  In x (sorted_keys eqb_key ltb_key l) <-> In x l.
Proof.
  induction l as [|k l IH]; simpl.
  - reflexivity.
  - rewrite In_insert_key, IH. intuition.
Qed.

Lemma insert_key_sorted (k : K) (ks : list K) :
  StronglySorted key_lt ks ->
  StronglySorted key_lt (insert_key eqb_key ltb_key k ks).
Proof.
  induction 1 as [|k' ks Hs IH Hall]; simpl.
  - repeat constructor.
  - destruct (eqb_key k k') eqn:E.
    + constructor; assumption.
    + destruct (ltb_key k k') eqn:L.
      * constructor; [constructor; assumption|].
        constructor; [exact L|].
        eapply Forall_impl; [|exact Hall].
        intros a Ha. eapply ltb_key_trans; eauto.
      * constructor; [exact IH|].
        apply Forall_forall. intros x Hx.
        apply In_insert_key in Hx. destruct Hx as [->|Hx].
        -- apply ltb_key_total; assumption.
        -- rewrite Forall_forall in Hall. apply Hall, Hx.
Qed.

Lemma sorted_keys_sorted (l : list K) :
  StronglySorted key_lt (sorted_keys eqb_key ltb_key l).
Proof.
  induction l as [|k l IH]; simpl.
  - constructor.
  - apply insert_key_sorted, IH.
Qed.

Lemma sorted_NoDup (l : list K) : StronglySorted key_lt l -> List.NoDup l.
Proof.
  induction 1 as [|k ks Hs IH Hall].
  - constructor.
  - constructor; [|exact IH].
    intros Hin. rewrite Forall_forall in Hall.
    specialize (Hall _ Hin). unfold key_lt in Hall.
    rewrite ltb_key_irrefl in Hall. discriminate.
Qed.

Lemma sorted_keys_NoDup (l : list K) :
  List.NoDup (sorted_keys eqb_key ltb_key l).
Proof. apply sorted_NoDup, sorted_keys_sorted. Qed.

(** Two strictly ascending lists with the same elements are equal. *)
Lemma sorted_ext (l1 l2 : list K) :
  StronglySorted key_lt l1 -> StronglySorted key_lt l2 ->
  (forall x, In x l1 <-> In x l2) -> l1 = l2.
Proof.
  intros H1. revert l2.
  induction H1 as [|a l1 Hs1 IH Hall1]; intros l2 H2 Hext.
  - destruct l2 as [|b l2]; [reflexivity|].
    exfalso. apply (Hext b). left. reflexivity.
  - destruct H2 as [|b l2 Hs2 Hall2].
    + exfalso. apply (Hext a). left. reflexivity.
    + rewrite Forall_forall in Hall1, Hall2.
      assert (a = b) as ->.
      { destruct (proj1 (Hext a) (or_introl Logic.eq_refl)) as [E|Hin]; [auto|].
        destruct (proj2 (Hext b) (or_introl Logic.eq_refl)) as [E|Hin']; [auto|].
        pose proof (Hall2 _ Hin) as Hba. pose proof (Hall1 _ Hin') as Hab.
        unfold key_lt in *.
        pose proof (ltb_key_trans _ _ _ Hab Hba) as Haa.
        rewrite ltb_key_irrefl in Haa. discriminate. }
      f_equal. apply IH; [exact Hs2|].
      intros x. split; intros Hx.
      * destruct (proj1 (Hext x) (or_intror Hx)) as [E|Hin]; [|exact Hin].
        subst x. specialize (Hall1 _ Hx). unfold key_lt in Hall1.
        rewrite ltb_key_irrefl in Hall1. discriminate.
      * destruct (proj2 (Hext x) (or_intror Hx)) as [E|Hin]; [|exact Hin].
        subst x. specialize (Hall2 _ Hx). unfold key_lt in Hall2.
        rewrite ltb_key_irrefl in Hall2. discriminate.
Qed.

Lemma eqb_key_refl (a : K) : eqb_key a a = true.
Proof. apply eqb_key_eq. reflexivity. Qed.

Lemma eqb_key_neq (a b : K) : a <> b -> eqb_key a b = false.
Proof.
  intros Hne. destruct (eqb_key a b) eqn:E; [|reflexivity].
  apply eqb_key_eq in E. contradiction.
Qed.

Context {R : Type}.
Variable key : R -> option K.

Lemma In_omap_key (k : K) (df : list R) :
  In k (omap key df) <-> exists r, In r df /\ key r = Some k.
Proof.
  rewrite <- list_elem_of_In, list_elem_of_omap.
  split; intros [r [H1 H2]]; exists r; split; auto;
    apply list_elem_of_In; assumption.
Qed.

Lemma map_fst_groupby (df : list R) :
  map fst (groupby eqb_key ltb_key key df)
  = sorted_keys eqb_key ltb_key (omap key df).
Proof.
  unfold groupby. rewrite map_map. simpl. apply map_id.
Qed.

Lemma list_sum_map_add {A : Type} (f g : A -> nat) (l : list A) :
  list_sum (map (fun x => f x + g x)%nat l)
  = (list_sum (map f l) + list_sum (map g l))%nat.
Proof. induction l as [|x l IH]; simpl; lia. Qed.

Lemma list_sum_map_zero {A : Type} (l : list A) :
  list_sum (map (fun _ => 0%nat) l) = 0%nat.
Proof. induction l as [|x l IH]; simpl; auto. Qed.

(** In a duplicate-free key list a key is met exactly once. *)
Lemma key_met_once (n : nat) (k0 : K) (ks : list K) :
  List.NoDup ks -> In k0 ks ->
  list_sum (map (fun k => if eqb_key k k0 then n else 0%nat) ks) = n.
Proof.
  induction 1 as [|k ks Hnotin Hnd IH]; intros Hin; [destruct Hin|].
  simpl. destruct Hin as [->|Hin].
  - rewrite eqb_key_refl.
    rewrite (map_ext_in _ (fun _ => 0%nat)).
    + rewrite list_sum_map_zero. lia.
    + intros k Hk. rewrite eqb_key_neq; [reflexivity|].
      intros ->. contradiction.
  - rewrite eqb_key_neq by (intros ->; contradiction).
    rewrite IH by exact Hin. reflexivity.
Qed.

Lemma group_count_cons (P : R -> bool) (r : R) (df : list R) (k : K) :
  group_count eqb_key key P (r :: df) k
  = ((if has_key eqb_key key k r then (if P r then 1 else 0) else 0)
     + group_count eqb_key key P df k)%nat.
Proof.
  unfold group_count. simpl.
  destruct (has_key eqb_key key k r); simpl; [|reflexivity].
  destruct (P r); reflexivity.
Qed.

(** Every row with a key falls in exactly one group of a duplicate-free key
    list that covers the keys: the selected rows of all groups add up to the
    selected rows that have a key. *)
Lemma groups_partition (P : R -> bool) (ks : list K) (df : list R) :
  List.NoDup ks ->
  (forall k, In k (omap key df) -> In k ks) ->
  list_sum (map (group_count eqb_key key P df) ks)
  = List.length (filter (fun r => notna (key r) && P r) df).
Proof.
  intros Hnd. induction df as [|r df IH]; intros Hcov.
  - unfold group_count. simpl. apply list_sum_map_zero.
  - assert (Hcov' : forall k, In k (omap key df) -> In k ks).
    { intros k Hk. apply Hcov. apply In_omap_key.
      apply In_omap_key in Hk. destruct Hk as [r' [H1 H2]].
      exists r'. split; [right; exact H1|exact H2]. }
    specialize (IH Hcov').
    rewrite (map_ext _ _ (group_count_cons P r df)).
    rewrite list_sum_map_add, IH. cbn [filter].
    unfold has_key. destruct (key r) as [k0|] eqn:Ek; simpl.
    + rewrite key_met_once.
      * destruct (P r); reflexivity.
      * exact Hnd.
      * apply Hcov. apply In_omap_key.
        exists r. split; [left; reflexivity|exact Ek].
    + rewrite list_sum_map_zero. reflexivity.
Qed.

Lemma sum_groupby_counts (P : R -> bool) (df : list R) :
  list_sum
    (map (fun kg : K * list R => List.length (filter P (snd kg)))
         (groupby eqb_key ltb_key key df))
  = List.length (filter (fun r => notna (key r) && P r) df).
Proof.
  unfold groupby. rewrite map_map. simpl.
  apply (groups_partition P).
  - apply sorted_keys_NoDup.
  - intros k Hk. apply In_sorted_keys. exact Hk.
Qed.

End GroupByFacts.

(** The same facts for the two key types of the script. *)

Lemma In_string_keys (x : string) (l : list string) :
  In x (sorted_keys String.eqb String.ltb l) <-> In x l.
Proof. apply In_sorted_keys, String.eqb_eq. Qed.

Lemma string_keys_sorted (l : list string) :
  StronglySorted string_lt (sorted_keys String.eqb String.ltb l).
Proof.
  apply sorted_keys_sorted;
    [exact String.eqb_eq|exact string_ltb_trans|exact string_ltb_total].
Qed.

Lemma string_keys_NoDup (l : list string) :
  List.NoDup (sorted_keys String.eqb String.ltb l).
Proof.
  apply sorted_NoDup with (ltb_key := String.ltb);
    [exact string_ltb_irrefl|apply string_keys_sorted].
Qed.

Lemma In_pair_keys (x : string * string) (l : list (string * string)) :
  In x (sorted_keys pair_eqb pair_ltb l) <-> In x l.
Proof. apply In_sorted_keys, pair_eqb_eq. Qed.

Lemma pair_keys_sorted (l : list (string * string)) :
  StronglySorted (fun a b => pair_ltb a b = true)
                 (sorted_keys pair_eqb pair_ltb l).
Proof.
  apply sorted_keys_sorted;
    [exact pair_eqb_eq|exact pair_ltb_trans|exact pair_ltb_total].
Qed.

(** ** Monthly Breakdown *)

(** The counts of a [groupby(key).agg(('CheckInDate', 'count'))] table add up
    to the rows that have both a key and a date. *)
Lemma sum_counts_groupby (key : Row -> option string) (df : DataFrame) :
  sum_counts
    (map (fun kg : string * DataFrame => (fst kg, count_CheckInDate (snd kg)))
         (groupby String.eqb String.ltb key df))
  = List.length (filter (fun r => notna (key r) && dated r) df).
Proof.
  unfold sum_counts. rewrite map_map. simpl.
  apply (sum_groupby_counts String.eqb String.ltb String.eqb_eq
           string_ltb_irrefl string_ltb_trans string_ltb_total key dated).
Qed.

Lemma filter_all {A : Type} (f : A -> bool) (l : list A) :
  Forall (fun x => f x = true) l -> filter f l = l.
Proof.
  induction 1 as [|x l Hx Hl IH]; simpl; [reflexivity|].
  rewrite Hx, IH. reflexivity.
Qed.

Lemma In_first_seen (s : string) (l : list string) :
  In s (first_seen l) <-> In s l.
Proof.
  induction l as [|x l IH]; simpl; [reflexivity|].
  rewrite filter_In, IH.
  destruct (String.eqb x s) eqn:E.
  - apply String.eqb_eq in E. subst. intuition.
  - split; [intuition|].
    intros [->|H]; [rewrite string_eqb_refl in E; discriminate|].
    right. split; [exact H|reflexivity].
Qed.

(** C2 (as amended).  The per-site counts of [monthlyBreakdown] add up to the
    number of the month's records that have both a site and a check-in date;
    when every record of the month has both, that is the ticket count reported
    for the month. *)
Theorem per_site_counts_sum (df : DataFrame) (month : string) :
  sum_counts (perSiteCounts (monthlyBreakdown df month))
  = List.length
      (filter (fun r => notna (Site r) && dated r) (selected_breakdown_df df month))
  /\ (Forall (fun r => notna (Site r) && dated r = true)
             (selected_breakdown_df df month) ->
      sum_counts (perSiteCounts (monthlyBreakdown df month))
      = count (monthlyBreakdown df month)).
Proof.
  assert (H : sum_counts (perSiteCounts (monthlyBreakdown df month))
              = List.length
                  (filter (fun r => notna (Site r) && dated r)
                          (selected_breakdown_df df month))).
  { simpl. unfold tickets_per_site. apply sum_counts_groupby. }
  split; [exact H|].
  intros Hall. rewrite H. simpl. unfold total_tickets.
  rewrite filter_all by exact Hall. reflexivity.
Qed.

Lemma per_site_counts_sum_witness :
  exists df,
    normalize_iso scenario_records = Some df
    /\ sum_counts (perSiteCounts (monthlyBreakdown df "2024-01")) = 2%nat
    /\ count (monthlyBreakdown df "2024-01") = 2%nat.
Proof.
  eexists. split; [reflexivity|].
  match goal with
  | |- sum_counts (perSiteCounts (monthlyBreakdown ?d ?m)) = _ /\ _ =>
      destruct (per_site_counts_sum d m) as [_ H]
  end.
  rewrite H; [split; reflexivity|].
  repeat constructor.
Defined.

(** C2 as stated fails: a record without a site is counted in the month's
    ticket count but belongs to no site group. *)
Lemma per_site_counts_sum_null_site :
  exists df,
    normalize_iso siteless_records = Some df
    /\ In "2024-01" (omap month_year_str df)
    /\ sum_counts (perSiteCounts (monthlyBreakdown df "2024-01")) = 0%nat
    /\ count (monthlyBreakdown df "2024-01") = 1%nat
    /\ sum_counts (perSiteCounts (monthlyBreakdown df "2024-01"))
       <> count (monthlyBreakdown df "2024-01").
Proof.
  eexists. split; [reflexivity|].
  split; [left; reflexivity|].
  split; [reflexivity|]. split; [reflexivity|]. discriminate.
Qed.

(** C5 (as amended).  The per-site table of [monthlyBreakdown] lists the sites
    of the month's records in strictly ascending label order, each once: the
    group order of [groupby], which the chart keeps ([sort=None]). *)
Theorem per_site_table_order (df : DataFrame) (month : string) :
  StronglySorted string_lt (map fst (perSiteCounts (monthlyBreakdown df month)))
  /\ (forall s,
        In s (map fst (perSiteCounts (monthlyBreakdown df month)))
        <-> In s (first_seen (omap Site (selected_breakdown_df df month)))).
Proof.
  simpl. unfold tickets_per_site. rewrite map_map. simpl.
  change (map (fun x : string * DataFrame => fst x)
              (groupby String.eqb String.ltb Site (selected_breakdown_df df month)))
    with (map fst (groupby String.eqb String.ltb Site (selected_breakdown_df df month))).
  rewrite map_fst_groupby. split.
  - apply string_keys_sorted.
  - intros s. rewrite In_first_seen.
    apply In_string_keys.
Qed.

(** C5 as stated fails: with site "B" seen before site "A" the table starts
    with "A". *)
Lemma per_site_table_not_first_seen :
  exists df,
    normalize_iso b_then_a_records = Some df
    /\ first_seen (omap Site (selected_breakdown_df df "2024-01")) = ["B"; "A"]
    /\ map fst (perSiteCounts (monthlyBreakdown df "2024-01")) = ["A"; "B"]
    /\ map fst (perSiteCounts (monthlyBreakdown df "2024-01"))
       <> first_seen (omap Site (selected_breakdown_df df "2024-01")).
Proof.
  eexists. split; [reflexivity|].
  split; [reflexivity|]. split; [reflexivity|]. discriminate.
Qed.

(** C6.  On the three records of the scenario, with any date parser that
    reads the three ISO dates and any number parser that rejects "bad",
    [monthlyBreakdown] for "2024-01" has count 2, average hours 1 and the
    per-site table A: 2. *)
Theorem scenario_breakdown
  (datetime_of_string : string -> option (option Timestamp))
  (number_of_string : string -> option Q)
  (H1 : datetime_of_string "2024-01-05" = Some (Some (mkTimestamp 2024 1 5 0)))
  (H2 : datetime_of_string "2024-01-20" = Some (Some (mkTimestamp 2024 1 20 0)))
  (H3 : datetime_of_string "2024-02-01" = Some (Some (mkTimestamp 2024 2 1 0)))
  (Hbad : number_of_string "bad" = None) :
  option_map (fun df => monthlyBreakdown df "2024-01")
             (normalize datetime_of_string number_of_string scenario_records)
  = Some {| count := 2; avgHours := Some 1%Q; perSiteCounts := [("A", 2%nat)] |}.
Proof.
  unfold normalize, scenario_records. simpl convert_dates.
  unfold set_CheckInDate. simpl. rewrite H1, H2, H3. simpl.
  cbv [set_Hours to_numeric_coerce Hours]. rewrite Hbad. reflexivity.
Qed.

Lemma scenario_breakdown_witness :
  option_map (fun df => monthlyBreakdown df "2024-01")
             (normalize_iso scenario_records)
  = Some {| count := 2; avgHours := Some 1%Q; perSiteCounts := [("A", 2%nat)] |}.
Proof.
  apply (scenario_breakdown iso_date_of_string integer_of_string); reflexivity.
Defined.

(** ** Pre-processing *)

Section NormalizeFacts.

Variable datetime_of_string : string -> option (option Timestamp).
Variable number_of_string : string -> option Q.

Let normalize' := normalize datetime_of_string number_of_string.
Let convert_dates' := convert_dates datetime_of_string.

Lemma convert_dates_Forall2 (df df' : DataFrame) :
  convert_dates' df = Some df' ->
  Forall2 (fun r r' => set_CheckInDate datetime_of_string r = Some r') df df'.
Proof.
  revert df'. induction df as [|r df IH]; intros df' H; simpl in H.
  - inversion H. constructor.
  - destruct (set_CheckInDate datetime_of_string r) as [r1|] eqn:E1;
      [|discriminate].
    fold convert_dates' in H.
    destruct (convert_dates' df) as [df1|] eqn:E2; [|discriminate].
    inversion H. subst. constructor; auto.
Qed.

Lemma convert_dates_returns (df : DataFrame) :
  Forall (fun r => to_datetime datetime_of_string (CheckInDate r) <> None) df ->
  exists df', convert_dates' df = Some df'.
Proof.
  induction 1 as [|r df Hr Hdf [df' IH]]; simpl.
  - exists []. reflexivity.
  - unfold set_CheckInDate.
    destruct (to_datetime datetime_of_string (CheckInDate r)) as [d|];
      [|contradiction].
    fold convert_dates'. rewrite IH. eexists. reflexivity.
Qed.

Lemma set_CheckInDate_Hours (r r' : Row) :
  set_CheckInDate datetime_of_string r = Some r' -> Hours r' = Hours r.
Proof.
  unfold set_CheckInDate.
  destruct (to_datetime datetime_of_string (CheckInDate r)); [|discriminate].
  intros H. inversion H. reflexivity.
Qed.

Lemma fillna0_to_numeric (c : hours_cell) :
  fillna0 (to_numeric_coerce number_of_string c)
  = HoursNum (numeric_or_zero number_of_string c).
Proof.
  destruct c as [|s|q]; simpl; try reflexivity.
  destruct (number_of_string s); reflexivity.
Qed.

Lemma normalize_Hours (df df' : DataFrame) :
  normalize' df = Some df' ->
  map Hours df'
  = map (fun r => HoursNum (numeric_or_zero number_of_string (Hours r))) df.
Proof.
  unfold normalize', normalize. fold convert_dates'.
  destruct (convert_dates' df) as [df1|] eqn:E; [|discriminate].
  intros H. inversion H. subst df'. clear H.
  apply convert_dates_Forall2 in E.
  induction E as [|r r1 df df1 Hr Hdf IH]; simpl; [reflexivity|].
  rewrite IH, fillna0_to_numeric, (set_CheckInDate_Hours _ _ Hr). reflexivity.
Qed.

Lemma to_datetime_not_text (c d : date_cell) :
  to_datetime datetime_of_string c = Some d ->
  match d with DateText _ => false | _ => true end = true.
Proof.
  destruct c as [|s|t]; simpl.
  - intros H. inversion H. reflexivity.
  - destruct (datetime_of_string s) as [[t|]|]; intros H; inversion H; reflexivity.
  - intros H. inversion H. reflexivity.
Qed.

Lemma normalize_normalized (df df' : DataFrame) :
  normalize' df = Some df' -> Forall (fun r => normalized_row r = true) df'.
Proof.
  unfold normalize', normalize. fold convert_dates'.
  destruct (convert_dates' df) as [df1|] eqn:E; [|discriminate].
  intros H. inversion H. subst df'. clear H.
  apply convert_dates_Forall2 in E.
  induction E as [|r r1 df df1 Hr Hdf IH]; simpl; constructor; [|exact IH].
  unfold normalized_row. simpl. rewrite fillna0_to_numeric.
  rewrite string_eqb_refl, andb_true_r. simpl.
  unfold set_CheckInDate in Hr.
  destruct (to_datetime datetime_of_string (CheckInDate r)) as [d|] eqn:Ed;
    [|discriminate].
  inversion Hr. simpl. eapply to_datetime_not_text. exact Ed.
Qed.

Lemma normalized_row_fixed (r : Row) :
  normalized_row r = true ->
  set_CheckInDate datetime_of_string r = Some r
  /\ set_month_year_str (set_Hours number_of_string r) = r.
Proof.
  unfold normalized_row, set_CheckInDate, set_month_year_str, set_Hours.
  destruct r as [d h s st it m]. simpl.
  rewrite !andb_true_iff. intros [[Hh Hd] Hm].
  destruct h as [| |q]; try discriminate.
  destruct m as [m|]; try discriminate.
  apply String.eqb_eq in Hm. subst m.
  destruct d as [|txt|t]; try discriminate; simpl; split; reflexivity.
Qed.

Lemma normalize_fixed (df : DataFrame) :
  Forall (fun r => normalized_row r = true) df -> normalize' df = Some df.
Proof.
  unfold normalize', normalize.
  induction 1 as [|r df Hr Hdf IH]; simpl; [reflexivity|].
  destruct (normalized_row_fixed r Hr) as [H1 H2].
  rewrite H1.
  destruct (convert_dates datetime_of_string df) as [df1|]; [|discriminate].
  inversion IH as [E]. simpl. rewrite H2.
  rewrite E at 1. rewrite E. reflexivity.
Qed.

End NormalizeFacts.

(** C8.  The pre-processing pass is idempotent: running it on its own result
    returns that result unchanged (and a pass that raises, raises). *)
Theorem normalize_idempotent
  (datetime_of_string : string -> option (option Timestamp))
  (number_of_string : string -> option Q) (df : DataFrame) :
  normalize datetime_of_string number_of_string df
    ≫= normalize datetime_of_string number_of_string
  = normalize datetime_of_string number_of_string df.
Proof.
  destruct (normalize datetime_of_string number_of_string df) as [df'|] eqn:E;
    simpl; [|reflexivity].
  apply normalize_fixed. eapply normalize_normalized. exact E.
Qed.

(** C4 (as amended).  When every date converts, the pre-processing pass
    returns, and the hours of every record are then a number: 0 for a missing
    or non-numeric value, the value itself for a number or a numeric string.
    They are non-negative as soon as the numeric inputs are; nothing clamps a
    negative input. *)
Theorem normalized_hours
  (datetime_of_string : string -> option (option Timestamp))
  (number_of_string : string -> option Q) (df : DataFrame)
  (Hdates : Forall (fun r => to_datetime datetime_of_string (CheckInDate r) <> None) df) :
  exists df',
    normalize datetime_of_string number_of_string df = Some df'
    /\ map Hours df'
       = map (fun r => HoursNum (numeric_or_zero number_of_string (Hours r))) df
    /\ (Forall (fun r => (0 <= numeric_or_zero number_of_string (Hours r))%Q) df ->
        Forall (fun r' => exists q, Hours r' = HoursNum q /\ (0 <= q)%Q) df').
Proof.
  destruct (convert_dates_returns datetime_of_string df Hdates) as [df1 E1].
  assert (E : normalize datetime_of_string number_of_string df
              = Some (map set_month_year_str (map (set_Hours number_of_string) df1))).
  { unfold normalize. rewrite E1. reflexivity. }
  eexists. split; [exact E|].
  pose proof (normalize_Hours _ _ _ _ E) as HH.
  split; [exact HH|].
  intros Hpos.
  remember (map set_month_year_str (map (set_Hours number_of_string) df1)) as df'.
  clear Heqdf' E E1 df1 Hdates.
  revert df' HH. induction Hpos as [|r df Hr Hdf IH]; intros df' HH.
  - destruct df'; [constructor|discriminate].
  - destruct df' as [|r' df']; [discriminate|].
    simpl in HH. inversion HH as [[H1 H2]].
    constructor; [|apply IH; exact H2].
    eexists. split; [exact H1|exact Hr].
Qed.

Lemma normalized_hours_witness :
  exists df',
    normalize_iso scenario_records = Some df'
    /\ map Hours df' = [HoursNum 2; HoursNum 0; HoursNum 4]
    /\ Forall (fun r' => exists q, Hours r' = HoursNum q /\ (0 <= q)%Q) df'.
Proof.
  destruct (normalized_hours iso_date_of_string integer_of_string scenario_records)
    as [df' [E [HH Hpos]]].
  - repeat constructor; discriminate.
  - exists df'. split; [exact E|]. split; [exact HH|].
    apply Hpos. repeat constructor; discriminate.
Defined.

(** C4 as stated fails: a negative number of hours is still negative after
    the pass. *)
Lemma normalized_hours_negative :
  exists r,
    normalize_iso negative_hours_records = Some [r]
    /\ Hours r = HoursNum (-3)
    /\ (-3 < 0)%Q.
Proof.
  eexists. split; [reflexivity|]. split; reflexivity.
Qed.

(** ** Subtype breakdown *)

Lemma filter_filter {A : Type} (f g : A -> bool) (l : list A) :
  filter f (filter g l) = filter (fun x => g x && f x) l.
Proof.
  induction l as [|x l IH]; simpl; [reflexivity|].
  destruct (g x); simpl; [|exact IH].
  destruct (f x); rewrite IH; reflexivity.
Qed.

Lemma monthly_filtered_data_eq (df : DataFrame) (selected : string) :
  monthly_filtered_data df selected
  = filter (fun r => notna (Subtype r) && notna (Item r) && in_selection selected r) df.
Proof.
  unfold monthly_filtered_data, filtered_tickets, in_selection.
  destruct (String.eqb selected All_Tickets); simpl.
  - apply filter_ext. intros r. rewrite andb_true_r. reflexivity.
  - rewrite filter_filter. reflexivity.
Qed.

Lemma filtered_tickets_drop (df1 df2 : DataFrame) (r : Row) :
  Subtype r = None \/ Item r = None ->
  filtered_tickets (df1 ++ r :: df2)%list = filtered_tickets (df1 ++ df2)%list.
Proof.
  intros H. unfold filtered_tickets. rewrite !filter_app. simpl.
  replace (notna (Subtype r) && notna (Item r)) with false; [reflexivity|].
  destruct H as [-> | ->]; simpl; [reflexivity|].
  rewrite andb_false_r. reflexivity.
Qed.

(** C7.  In both modes a record whose subtype or item is missing can be
    removed without changing the subtype table, and the counts of the table
    add up to the selected records that have a subtype, an item and a
    check-in date. *)
Theorem subtype_breakdown_excludes
  (df1 df2 : DataFrame) (r : Row) (selected : string)
  (Hmissing : Subtype r = None \/ Item r = None) :
  subtypeBreakdown (df1 ++ r :: df2)%list selected
  = subtypeBreakdown (df1 ++ df2)%list selected
  /\ sum_counts (subtypeBreakdown (df1 ++ r :: df2)%list selected)
     = List.length
         (filter (fun x => notna (Subtype x) && notna (Item x)
                           && in_selection selected x && dated x)
                 (df1 ++ df2)%list).
Proof.
  assert (E : subtypeBreakdown (df1 ++ r :: df2)%list selected
              = subtypeBreakdown (df1 ++ df2)%list selected).
  { unfold subtypeBreakdown, data_to_chart_subtype, monthly_filtered_data.
    rewrite (filtered_tickets_drop df1 df2 r Hmissing). reflexivity. }
  split; [exact E|]. rewrite E.
  unfold subtypeBreakdown, data_to_chart_subtype.
  rewrite sum_counts_groupby, monthly_filtered_data_eq, filter_filter.
  f_equal. apply filter_ext. intros x.
  destruct (Subtype x); simpl; reflexivity.
Qed.

Lemma subtype_breakdown_excludes_witness :
  subtypeBreakdown
    [ stored_row 2024 1 5 1 (Some "A") (Some "Install") (Some "Router");
      stored_row 2024 1 6 1 (Some "A") None (Some "Switch");
      stored_row 2024 1 9 1 (Some "B") (Some "Repair") None;
      stored_row 2024 2 1 1 (Some "B") (Some "Repair") (Some "Router") ]
    All_Tickets
  = [("Install", 1%nat); ("Repair", 1%nat)].
Proof.
  destruct (subtype_breakdown_excludes
              [stored_row 2024 1 5 1 (Some "A") (Some "Install") (Some "Router")]
              [stored_row 2024 1 9 1 (Some "B") (Some "Repair") None;
               stored_row 2024 2 1 1 (Some "B") (Some "Repair") (Some "Router")]
              (stored_row 2024 1 6 1 (Some "A") None (Some "Switch"))
              All_Tickets (or_introl Logic.eq_refl)) as [E _].
  simpl app in E. rewrite E. reflexivity.
Defined.

(** ** Monthly trend *)

Lemma fold_min_spec (i : Z) (rest : list Z) :
  In (fold_right Z.min i rest) (i :: rest)
  /\ forall x, In x (i :: rest) -> fold_right Z.min i rest <= x.
Proof.
  induction rest as [|y rest [IHin IHle]]; simpl.
  - split; [left; reflexivity|]. intros x [->|[]]. lia.
  - split.
    + destruct (Z.min_spec y (fold_right Z.min i rest)) as [[_ ->]|[_ ->]].
      * right. left. reflexivity.
      * destruct IHin as [E|Hin]; [left; exact E|right; right; exact Hin].
    + intros x [->|[->|Hx]].
      * specialize (IHle x (or_introl Logic.eq_refl)). lia.
      * lia.
      * specialize (IHle x (or_intror Hx)). lia.
Qed.

Lemma fold_max_spec (i : Z) (rest : list Z) :
  In (fold_right Z.max i rest) (i :: rest)
  /\ forall x, In x (i :: rest) -> x <= fold_right Z.max i rest.
Proof.
  induction rest as [|y rest [IHin IHle]]; simpl.
  - split; [left; reflexivity|]. intros x [->|[]]. lia.
  - split.
    + destruct (Z.max_spec y (fold_right Z.max i rest)) as [[_ ->]|[_ ->]].
      * destruct IHin as [E|Hin]; [left; exact E|right; right; exact Hin].
      * right. left. reflexivity.
    + intros x [->|[->|Hx]].
      * specialize (IHle x (or_introl Logic.eq_refl)). lia.
      * lia.
      * specialize (IHle x (or_intror Hx)). lia.
Qed.

(** The bins are the months between two dated records. *)
Lemma In_month_bins (df : DataFrame) (i : Z) :
  In i (month_bins df)
  <-> exists a b, In a (dated_months df) /\ In b (dated_months df) /\ a <= i <= b.
Proof.
  unfold month_bins. destruct (dated_months df) as [|m rest].
  - simpl. split; [intros []|intros [a [b [[] _]]]].
  - destruct (fold_min_spec m rest) as [Hlo_in Hlo].
    destruct (fold_max_spec m rest) as [Hhi_in Hhi].
    set (lo := fold_right Z.min m rest) in *.
    set (hi := fold_right Z.max m rest) in *.
    cbv zeta. rewrite in_map_iff. split.
    + intros [k [<- Hk]]. apply in_seq in Hk.
      exists lo, hi. split; [exact Hlo_in|]. split; [exact Hhi_in|]. lia.
    + intros [a [b [Ha [Hb Hab]]]].
      specialize (Hlo a Ha). specialize (Hhi b Hb).
      exists (Z.to_nat (i - lo)). split; [lia|].
      apply in_seq. lia.
Qed.

Lemma month_end_lt (i j : Z) : i < j -> ts_lt (month_end i) (month_end j).
Proof.
  intros Hij. unfold ts_lt, month_end. simpl.
  pose proof (Z.div_mod i 12 ltac:(lia)) as Hi.
  pose proof (Z.div_mod j 12 ltac:(lia)) as Hj.
  pose proof (Z.mod_pos_bound i 12 ltac:(lia)) as Bi.
  pose proof (Z.mod_pos_bound j 12 ltac:(lia)) as Bj.
  destruct (Z.lt_trichotomy (i / 12) (j / 12)) as [H|[H|H]].
  - left. exact H.
  - right. split; [exact H|]. left. lia.
  - exfalso. lia.
Qed.

Lemma ts_lt_irrefl (t : Timestamp) : ~ ts_lt t t.
Proof. unfold ts_lt. lia. Qed.

Lemma month_end_inj (i j : Z) : month_end i = month_end j -> i = j.
Proof.
  intros E. destruct (Z.lt_trichotomy i j) as [H|[H|H]]; [|exact H|].
  - apply month_end_lt in H. rewrite E in H. destruct (ts_lt_irrefl _ H).
  - apply month_end_lt in H. rewrite E in H. destruct (ts_lt_irrefl _ H).
Qed.

Lemma consecutive_months_sorted (lo : Z) (start n : nat) :
  StronglySorted ts_lt
    (map month_end (map (fun k => lo + Z.of_nat k) (seq start n))).
Proof.
  revert start. induction n as [|n IH]; intros start; simpl.
  - constructor.
  - constructor; [apply IH|].
    apply Forall_forall. intros t Ht.
    apply in_map_iff in Ht. destruct Ht as [i [<- Hi]].
    apply in_map_iff in Hi. destruct Hi as [k [<- Hk]].
    apply in_seq in Hk. apply month_end_lt. lia.
Qed.

Lemma monthly_data_labels (df : DataFrame) :
  map trend_CheckInDate (monthly_data df) = map month_end (month_bins df).
Proof. unfold monthly_data. rewrite map_map. reflexivity. Qed.

Lemma in_month_dated (i : Z) (df : DataFrame) :
  count_CheckInDate (filter (in_month i) df)
  = List.length (filter (in_month i) df).
Proof.
  unfold count_CheckInDate. f_equal. apply filter_all.
  apply Forall_forall. intros r Hr. apply filter_In in Hr.
  destruct Hr as [_ Hr]. unfold in_month in Hr.
  destruct (CheckInDate r); simpl in *; try discriminate. reflexivity.
Qed.

(** C3 (as amended).  [monthlyTrend] returns one row per calendar month from
    the month of the earliest dated record to the month of the latest one,
    labelled with the month end, in strictly increasing chronological order;
    each row carries the number and the mean hours of the records dated in its
    month, so a month of that range without records has a row with count 0. *)
Theorem monthly_trend_rows (df : DataFrame) :
  StronglySorted ts_lt (map trend_CheckInDate (monthlyTrend df))
  /\ (forall i,
        In (month_end i) (map trend_CheckInDate (monthlyTrend df))
        <-> exists a b,
              In a (dated_months df) /\ In b (dated_months df) /\ a <= i <= b)
  /\ Forall (fun row =>
               exists i,
                 trend_CheckInDate row = month_end i
                 /\ trend_total_tickets row = List.length (filter (in_month i) df)
                 /\ trend_avg_hours row = mean_Hours (filter (in_month i) df))
            (monthlyTrend df).
Proof.
  unfold monthlyTrend. split; [|split].
  - rewrite monthly_data_labels. unfold month_bins.
    destruct (dated_months df) as [|m rest]; [constructor|].
    apply consecutive_months_sorted.
  - intros i. rewrite monthly_data_labels, <- In_month_bins.
    rewrite in_map_iff. split.
    + intros [j [E Hj]]. apply month_end_inj in E. subst j. exact Hj.
    + intros Hi. exists i. split; [reflexivity|exact Hi].
  - apply Forall_forall. intros row Hrow.
    unfold monthly_data in Hrow. apply in_map_iff in Hrow.
    destruct Hrow as [i [<- _]]. exists i. simpl.
    split; [reflexivity|]. split; [apply in_month_dated|reflexivity].
Qed.

(** C3 as stated fails: with tickets in January and March only, the trend has
    a row for February, in which no record falls. *)
Lemma monthly_trend_gap_month :
  exists df,
    normalize_iso gap_records = Some df
    /\ filter (in_month (month_index (mkTimestamp 2024 2 1 0))) df = []
    /\ ~ In "2024-02" (omap month_year_str df)
    /\ In {| trend_CheckInDate := mkTimestamp 2024 2 29 0;
             trend_total_tickets := 0;
             trend_avg_hours := None;
             month_label := "02/24" |}
          (monthlyTrend df).
Proof.
  eexists. split; [reflexivity|]. split; [reflexivity|]. split.
  - simpl. intros [H|[H|[]]]; discriminate.
  - right. left. reflexivity.
Qed.

(** ** Empty fetch *)

(** C9.  When the fetch returns no rows the page shows the warning and nothing
    else, whatever the session, and no exception is raised; on an empty frame
    every aggregation returns its empty result: count 0, no average ([NaN]),
    empty tables, the "no data" signal. *)
Theorem empty_fetch
  (datetime_of_string : string -> option (option Timestamp))
  (number_of_string : string -> option Q) (s : Session) :
  snd (script datetime_of_string number_of_string s []) = Warned no_data_warning
  /\ (forall month,
        monthlyBreakdown [] month
        = {| count := 0; avgHours := None; perSiteCounts := [] |})
  /\ monthlyTrend [] = []
  /\ siteMonthlyAverage [] = []
  /\ tickets_by_month [] = []
  /\ (forall selected, subtypeBreakdown [] selected = [])
  /\ (forall subtype month, siteBreakdownForSubtype [] subtype month = None).
Proof.
  repeat split; intros; try reflexivity.
  - unfold subtypeBreakdown, data_to_chart_subtype, monthly_filtered_data.
    destruct (negb (String.eqb selected All_Tickets)); reflexivity.
  - unfold siteBreakdownForSubtype, filtered_by_subtype, monthly_filtered_data.
    destruct (negb (String.eqb month All_Tickets)); reflexivity.
Qed.

(** ** The chart selection *)

Lemma init_selection_lookup (st : gmap string session_value) :
  selection_unset st -> init_selection st !! "selection" = Some SessNone.
Proof.
  unfold selection_unset, init_selection. intros [H|H]; rewrite H.
  - apply lookup_insert_eq.
  - exact H.
Qed.

Lemma init_selection_widget (st : gmap string session_value) (key : string) :
  key <> "selection" ->
  widget_value (init_selection st) key = widget_value st key.
Proof.
  intros Hne. unfold widget_value, init_selection.
  destruct (st !! "selection"); [reflexivity|].
  rewrite lookup_insert_ne by congruence. reflexivity.
Qed.

Lemma keep_widget_selection (key value : string) (st : gmap string session_value) :
  key <> "selection" -> keep_widget key value st !! "selection" = st !! "selection".
Proof. intros Hne. unfold keep_widget. apply lookup_insert_ne. exact Hne. Qed.

Lemma keep_widget_value (key value : string) (st : gmap string session_value) :
  widget_value (keep_widget key value st) key = Some value.
Proof. unfold widget_value, keep_widget. rewrite lookup_insert_eq. reflexivity. Qed.

Lemma keep_widget_other (key key' value : string) (st : gmap string session_value) :
  key <> key' -> widget_value (keep_widget key value st) key' = widget_value st key'.
Proof.
  intros Hne. unfold widget_value, keep_widget.
  rewrite lookup_insert_ne by exact Hne. reflexivity.
Qed.

Lemma handle_selection (e : Event) (s : Session) :
  session_state (handle e s) !! "selection" = session_state s !! "selection".
Proof.
  destruct e; simpl; try reflexivity; apply keep_widget_selection; discriminate.
Qed.

(** The only event that changes the state of the subtype dropdown is a pick
    in that dropdown. *)
Lemma handle_dropdown (e : Event) (s : Session) :
  widget_value (session_state (handle e s)) "subtype_select_box"
  = dropdown_choice e (session_state s).
Proof.
  destruct e; simpl.
  - apply keep_widget_other. discriminate.
  - reflexivity.
  - apply keep_widget_value.
  - reflexivity.
Qed.

Lemma from_chart_None (st : gmap string session_value) :
  st !! "selection" = Some SessNone ->
  selected_subtype_from_chart st = Some None.
Proof.
  intros H. unfold selected_subtype_from_chart.
  destruct (decide (st = ∅)); [reflexivity|]. rewrite H. reflexivity.
Qed.

Lemma selectbox_subtype (df : DataFrame) (month : string) (choice : option string) :
  selectbox (subtype_options df month) 0 choice
  = Some (shown_subtype choice (subtype_options df month)).
Proof.
  unfold selectbox, shown_subtype. destruct choice as [t|]; [|reflexivity].
  destruct (mem_string t (subtype_options df month)); reflexivity.
Qed.

Section ScriptFacts.

Variable datetime_of_string : string -> option (option Timestamp).
Variable number_of_string : string -> option Q.

Let script' := script datetime_of_string number_of_string.

(** A run that starts with the slot at [None] leaves it there, creates the
    subtype selectbox with index 0, and shows what the dropdown's own state
    gives. *)
Lemma render_dropdown_only (s : Session) (df : DataFrame) :
  session_state s !! "selection" = Some SessNone ->
  dropdown_only (render s df)
  /\ match snd (render s df) with
     | Rendered v =>
         view_selected_subtype v
         = shown_subtype (widget_value (session_state s) "subtype_select_box")
                         (view_subtype_options v)
     | Raised | Warned _ => True
     end.
Proof.
  intros Hsel. unfold render, dropdown_only.
  destruct (selectbox (breakdown_month_options df) 0
              (widget_value (session_state s) "breakdown_month_selector"))
    as [m|]; [|simpl; auto using from_chart_None].
  set (st1 := keep_widget "breakdown_month_selector" m (session_state s)).
  assert (Hsel1 : st1 !! "selection" = Some SessNone).
  { unfold st1. rewrite keep_widget_selection by discriminate. exact Hsel. }
  assert (Hdrop : widget_value st1 "subtype_select_box"
                  = widget_value (session_state s) "subtype_select_box").
  { unfold st1. apply keep_widget_other. discriminate. }
  cbv zeta.
  destruct (monthly_data_checked df) as [trend|];
    [|simpl; auto using from_chart_None].
  destruct (selectbox (pie_month_options df) 0 (pie_month_widget s)) as [p|];
    [|simpl; auto using from_chart_None].
  rewrite (from_chart_None st1 Hsel1). simpl initial_index.
  rewrite selectbox_subtype. simpl.
  rewrite keep_widget_selection by discriminate.
  rewrite keep_widget_value, Hdrop.
  repeat split; try assumption.
  apply from_chart_None. rewrite keep_widget_selection by discriminate.
  exact Hsel1.
Qed.

Lemma script_dropdown_only (s : Session) (fetched : DataFrame) :
  selection_unset (session_state s) ->
  dropdown_only (script' s fetched)
  /\ match snd (script' s fetched) with
     | Rendered v =>
         view_selected_subtype v
         = shown_subtype (widget_value (session_state s) "subtype_select_box")
                         (view_subtype_options v)
     | Raised | Warned _ => True
     end.
Proof.
  intros Hs. apply init_selection_lookup in Hs.
  rewrite <- (init_selection_widget (session_state s) "subtype_select_box")
    by discriminate.
  unfold script', script.
  destruct (negb (df_empty fetched)).
  - destruct (normalize datetime_of_string number_of_string fetched) as [df|].
    + apply (render_dropdown_only
               {| session_state := init_selection (session_state s);
                  pie_month_widget := pie_month_widget s |} df Hs).
    + unfold dropdown_only. simpl. auto using from_chart_None.
  - unfold dropdown_only. simpl. auto using from_chart_None.
Qed.

Lemma browse_dropdown_only (trace : list (Event * DataFrame))
  (now : Session * Outcome) :
  dropdown_only now ->
  dropdown_only (browse datetime_of_string number_of_string now trace).
Proof.
  revert now. induction trace as [|[e fetched] trace IH]; intros now Hnow.
  - exact Hnow.
  - simpl. apply IH. apply script_dropdown_only.
    right. rewrite handle_selection. exact (proj1 Hnow).
Qed.

End ScriptFacts.

(** C10.  In every browsing session, after every run of the script,
    [st.session_state['selection']] is [None]: the script only ever stores
    [None] there and no widget writes to that key, a click on the pie chart
    included.  So the subtype read from the chart is [None] and the subtype
    selectbox is created with index 0: on the first load it shows
    "All Subtypes".  On every later run the subtype shown is decided by the
    dropdown alone: it is the subtype just picked in the dropdown when the
    event is such a pick, and otherwise, for a click on the pie as for the
    two month selectors, the subtype the dropdown held before (or
    "All Subtypes" when that subtype is no longer offered). *)
Theorem chart_selection_never_set
  (datetime_of_string : string -> option (option Timestamp))
  (number_of_string : string -> option Q)
  (first : DataFrame) (trace : list (Event * DataFrame)) :
  dropdown_only (session_run datetime_of_string number_of_string first trace)
  /\ match snd (script datetime_of_string number_of_string new_session first) with
     | Rendered v => view_selected_subtype v = All_Subtypes
     | Raised | Warned _ => True
     end
  /\ forall e fetched,
       match
         snd (script datetime_of_string number_of_string
                (handle e
                   (fst (session_run datetime_of_string number_of_string
                           first trace)))
                fetched)
       with
       | Rendered v =>
           view_initial_index v = 0%nat
           /\ view_selected_subtype v
              = shown_subtype
                  (dropdown_choice e
                     (session_state
                        (fst (session_run datetime_of_string number_of_string
                                first trace))))
                  (view_subtype_options v)
       | Raised | Warned _ => True
       end.
Proof.
  assert (Hnew : selection_unset (session_state new_session))
    by (left; apply lookup_empty).
  assert (Hrun : dropdown_only
                   (session_run datetime_of_string number_of_string first trace)).
  { unfold session_run. apply browse_dropdown_only.
    apply script_dropdown_only. exact Hnew. }
  split; [exact Hrun|]. split.
  - destruct (script_dropdown_only datetime_of_string number_of_string
                new_session first Hnew) as [_ H].
    destruct (snd (script datetime_of_string number_of_string new_session first));
      try exact I.
    rewrite H. reflexivity.
  - intros e fetched.
    set (s := fst (session_run datetime_of_string number_of_string first trace)).
    assert (Hs : selection_unset (session_state (handle e s))).
    { right. rewrite handle_selection. exact (proj1 Hrun). }
    destruct (script_dropdown_only datetime_of_string number_of_string
                (handle e s) fetched Hs) as [[_ [_ Hindex]] Hshown].
    rewrite handle_dropdown in Hshown.
    destruct (snd (script datetime_of_string number_of_string (handle e s) fetched));
      try exact I.
    split; [apply Hindex|exact Hshown].
Qed.

(** A pick in the dropdown selects the subtype, and a later click on another
    slice of the pie does not change it. *)
Lemma pick_then_click_example :
  exists v,
    snd (session_run iso_date_of_string integer_of_string subtype_records
           [ (PickSubtype "Repair", subtype_records);
             (ClickPie "Install", subtype_records) ])
    = Rendered v
    /\ view_subtype_options v = [All_Subtypes; "Install"; "Repair"]
    /\ view_selected_subtype v = "Repair".
Proof.
  eexists. split; [vm_compute; reflexivity|]. split; reflexivity.
Qed.

(** ** Average ticket count per site *)

Lemma filter_map_comm {A B : Type} (f : B -> bool) (g : A -> B) (l : list A) :
  filter f (map g l) = map g (filter (fun x => f (g x)) l).
Proof.
  induction l as [|x l IH]; simpl; [reflexivity|].
  destruct (f (g x)); simpl; rewrite IH; reflexivity.
Qed.

Lemma StronglySorted_filter_keep {A : Type} (R : A -> A -> Prop)
  (f : A -> bool) (l : list A) :
  StronglySorted R l -> StronglySorted R (filter f l).
Proof.
  induction 1 as [|x l Hs IH Hall]; simpl; [constructor|].
  destruct (f x); [|exact IH].
  constructor; [exact IH|].
  rewrite Forall_forall in *. intros y Hy.
  apply filter_In in Hy. apply Hall, Hy.
Qed.

Lemma sorted_keys_same (l1 l2 : list string) :
  (forall x, In x l1 <-> In x l2) ->
  sorted_keys String.eqb String.ltb l1 = sorted_keys String.eqb String.ltb l2.
Proof.
  intros H.
  apply (sorted_ext String.ltb string_ltb_irrefl string_ltb_trans).
  - apply string_keys_sorted.
  - apply string_keys_sorted.
  - intros x. rewrite !In_string_keys.
    apply H.
Qed.

Lemma pair_site_sorted (s : string) (l : list string) :
  StronglySorted string_lt l ->
  StronglySorted (fun a b => pair_ltb a b = true) (map (pair s) l).
Proof.
  induction 1 as [|m l Hs IH Hall]; simpl; constructor; [exact IH|].
  rewrite Forall_forall in *. intros k Hk.
  apply in_map_iff in Hk. destruct Hk as [m' [<- Hm']].
  unfold pair_ltb. simpl. rewrite string_eqb_refl, (Hall _ Hm').
  apply orb_true_r.
Qed.

Lemma site_month_key_Some (r : Row) (s m : string) :
  site_month_key r = Some (s, m) <-> Site r = Some s /\ month_year_str r = Some m.
Proof.
  unfold site_month_key.
  destruct (Site r), (month_year_str r); split;
    try (intros [H1 H2]); try intros H; try discriminate; try congruence.
  inversion H. auto.
Qed.

Lemma site_is_true (s : string) (r : Row) :
  site_is s r = true <-> Site r = Some s.
Proof.
  unfold site_is. destruct (Site r) as [s'|].
  - rewrite String.eqb_eq. split; congruence.
  - split; discriminate.
Qed.

(** The (site, month) group keys of one site are its months. *)
Lemma site_group_keys (df : DataFrame) (s : string) :
  filter (fun k : string * string => String.eqb s (fst k))
         (sorted_keys pair_eqb pair_ltb (omap site_month_key df))
  = map (pair s) (site_months df s).
Proof.
  apply (sorted_ext pair_ltb pair_ltb_irrefl pair_ltb_trans).
  - apply StronglySorted_filter_keep.
    apply pair_keys_sorted.
  - apply pair_site_sorted.
    apply string_keys_sorted.
  - intros [a b]. rewrite filter_In, in_map_iff. simpl.
    rewrite In_pair_keys, In_omap_key.
    rewrite String.eqb_eq. split.
    + intros [[r [Hr Hk]] <-]. exists b. split; [reflexivity|].
      apply In_string_keys.
      apply In_omap_key. apply site_month_key_Some in Hk.
      exists r. split; [|apply Hk].
      apply filter_In. split; [exact Hr|]. apply site_is_true, Hk.
    + intros [m [E Hm]]. inversion E. subst a m. split; [|reflexivity].
      unfold site_months in Hm.
      rewrite In_string_keys in Hm.
      apply In_omap_key in Hm. destruct Hm as [r [Hr Hk]].
      apply filter_In in Hr. destruct Hr as [Hr Hs].
      exists r. split; [exact Hr|].
      apply site_month_key_Some. split; [apply site_is_true, Hs|exact Hk].
Qed.

Lemma has_site_month_key (s m : string) (r : Row) :
  has_key pair_eqb site_month_key (s, m) r = site_is s r && month_is m r.
Proof.
  unfold has_key, site_month_key, site_is, month_is, pair_eqb.
  destruct (Site r) as [s'|], (month_year_str r) as [m'|]; simpl;
    rewrite ?andb_false_r; try reflexivity.
  rewrite (String.eqb_sym m m'). reflexivity.
Qed.

Lemma site_month_group_count (df : DataFrame) (s m : string) :
  count_CheckInDate (filter (has_key pair_eqb site_month_key (s, m)) df)
  = site_month_count df s m.
Proof.
  unfold site_month_count, site_rows. rewrite filter_filter.
  f_equal. apply filter_ext. intros r. apply has_site_month_key.
Qed.

Lemma tickets_per_site_per_month_eq (df : DataFrame) :
  tickets_per_site_per_month df
  = map (fun k => (k, site_month_count df (fst k) (snd k)))
        (sorted_keys pair_eqb pair_ltb (omap site_month_key df)).
Proof.
  unfold tickets_per_site_per_month, groupby. rewrite map_map. simpl.
  apply map_ext. intros [s m]. simpl. rewrite site_month_group_count.
  reflexivity.
Qed.

(** The second stage, site by site. *)
Lemma avg_tickets_by_site_eq (df : DataFrame) :
  avg_tickets_by_site df = map (fun s => (s, two_stage_mean df s)) (sites_of df).
Proof.
  unfold avg_tickets_by_site, groupby. rewrite map_map. simpl.
  rewrite tickets_per_site_per_month_eq.
  set (keys := sorted_keys pair_eqb pair_ltb (omap site_month_key df)).
  assert (Hs : sorted_keys String.eqb String.ltb
                 (omap (fun x : string * string * nat => Some (fst (fst x)))
                       (map (fun k => (k, site_month_count df (fst k) (snd k))) keys))
               = sites_of df).
  { apply sorted_keys_same. intros s. rewrite !In_omap_key. split.
    - intros [x [Hx E]]. apply in_map_iff in Hx. destruct Hx as [[a b] [<- Hk]].
      simpl in E. inversion E. subst a. unfold keys in Hk.
      rewrite In_pair_keys in Hk.
      apply In_omap_key in Hk. destruct Hk as [r [Hr Hk]].
      exists r. split; [exact Hr|]. rewrite Hk. reflexivity.
    - intros [r [Hr E]].
      destruct (site_month_key r) as [[a b]|] eqn:Hk; [|discriminate].
      simpl in E. inversion E. subst a.
      exists ((s, b), site_month_count df s b). split; [|reflexivity].
      apply in_map_iff. exists (s, b). split; [reflexivity|].
      apply In_pair_keys.
      apply In_omap_key. exists r. split; assumption. }
  rewrite Hs. apply map_ext. intros s. f_equal.
  unfold two_stage_mean, monthly_volumes. f_equal.
  rewrite filter_map_comm. unfold has_key. simpl.
  unfold keys. rewrite (site_group_keys df s).
  rewrite !map_map. reflexivity.
Qed.

(** *** Sums of squares *)

Lemma sq_dev_expand (x : Z) (l : list Z) :
  sq_dev x l
  = Z.of_nat (List.length l) * (x * x) - 2 * x * Zsum l
    + Zsum (map (fun c => c * c) l).
Proof.
  induction l as [|c l IH]; [unfold Zsum; simpl; lia|].
  cbn [sq_dev List.length map Zsum fold_right]. fold (Zsum l).
  fold (Zsum (map (fun c => c * c) l)). rewrite IH. lia.
Qed.

Lemma sq_dev_zero (x : Z) (l : list Z) :
  0 <= sq_dev x l /\ (sq_dev x l = 0 <-> forall c, In c l -> c = x).
Proof.
  induction l as [|c l [IH0 IH]]; simpl.
  - split; [lia|]. split; [intros _ c []|reflexivity].
  - assert (Hsq : 0 <= (x - c) * (x - c)) by apply Z.square_nonneg.
    split; [lia|]. split.
    + intros H. assert (Hc : (x - c) * (x - c) = 0) by lia.
      assert (Hl : sq_dev x l = 0) by lia.
      intros c' [<-|Hc']; [|apply IH; assumption].
      apply Z.mul_eq_0 in Hc. lia.
    + intros H. rewrite (proj2 IH) by (intros c' Hc'; apply H; right; exact Hc').
      rewrite (H c (or_introl Logic.eq_refl)). lia.
Qed.

Lemma spread_eq (l : list Z) :
  Z.of_nat (List.length l) * Zsum (map (fun c => c * c) l)
  = Zsum l * Zsum l + spread l.
Proof.
  induction l as [|x l IH]; [reflexivity|].
  cbn [spread List.length map Zsum fold_right]. fold (Zsum l).
  fold (Zsum (map (fun c => c * c) l)). rewrite sq_dev_expand. lia.
Qed.

Lemma spread_zero (l : list Z) :
  0 <= spread l
  /\ (spread l = 0 <-> forall a b, In a l -> In b l -> a = b).
Proof.
  induction l as [|x l [IH0 IH]]; simpl.
  - split; [lia|]. split; [intros _ a b []|reflexivity].
  - destruct (sq_dev_zero x l) as [Hd0 Hd].
    split; [lia|]. split.
    + intros H. assert (H1 : sq_dev x l = 0) by lia.
      assert (H2 : spread l = 0) by lia.
      pose proof (proj1 Hd H1) as Hx.
      intros a b [<-|Ha] [<-|Hb]; auto.
      * symmetry. auto.
      * rewrite (Hx a Ha), (Hx b Hb). reflexivity.
    + intros H.
      rewrite (proj2 Hd) by (intros c Hc; apply H; [right; exact Hc|left; reflexivity]).
      rewrite (proj2 IH) by (intros a b Ha Hb; apply H; right; assumption).
      reflexivity.
Qed.

(** The mean of the squares is the square of the mean only for equal
    values. *)
Lemma squares_balance (l : list Z) :
  Zsum l * Zsum l = Z.of_nat (List.length l) * Zsum (map (fun c => c * c) l)
  <-> forall a b, In a l -> In b l -> a = b.
Proof.
  rewrite spread_eq. destruct (spread_zero l) as [H0 H]. rewrite <- H. lia.
Qed.

(** *** Means as ratios of counts *)

Lemma Qnat_add (a b : nat) : (Qnat (a + b) == Qnat a + Qnat b)%Q.
Proof. unfold Qnat. rewrite Nat2Z.inj_add, inject_Z_plus. reflexivity. Qed.

Lemma Qnat_mul (a b : nat) : (Qnat (a * b) == Qnat a * Qnat b)%Q.
Proof. unfold Qnat. rewrite Nat2Z.inj_mul, inject_Z_mult. reflexivity. Qed.

Lemma Qnat_eq (a b : nat) : (Qnat a == Qnat b)%Q <-> a = b.
Proof. unfold Qnat. rewrite inject_Z_injective. lia. Qed.

Lemma Qnat_pos_neq (b : nat) : (0 < b)%nat -> ~ (Qnat b == 0)%Q.
Proof. intros Hb E. apply (Qnat_eq b 0) in E. lia. Qed.

Lemma mean_ratio (qs : list Q) (a : nat) :
  (Qsum qs == Qnat a)%Q -> mean qs = ratio a (List.length qs).
Proof.
  intros H. destruct qs as [|q qs]; [reflexivity|].
  unfold mean, ratio. cbn [List.length]. f_equal.
  apply Qred_complete. rewrite H. reflexivity.
Qed.

Lemma Qsum_map_Qnat (l : list nat) : (Qsum (map Qnat l) == Qnat (list_sum l))%Q.
Proof.
  induction l as [|c l IH]; simpl; [reflexivity|].
  fold (Qsum (map Qnat l)). rewrite IH, Qnat_add. reflexivity.
Qed.

Lemma Qsum_app (l1 l2 : list Q) : (Qsum (l1 ++ l2) == Qsum l1 + Qsum l2)%Q.
Proof.
  induction l1 as [|q l1 IH]; simpl.
  - rewrite Qplus_0_l. reflexivity.
  - fold (Qsum (l1 ++ l2)%list). fold (Qsum l1). rewrite IH, Qplus_assoc.
    reflexivity.
Qed.

Lemma Qsum_repeat (q : Q) (n : nat) : (Qsum (repeat q n) == Qnat n * q)%Q.
Proof.
  induction n as [|n IH].
  - simpl. unfold Qnat. simpl. rewrite Qmult_0_l. reflexivity.
  - cbn [repeat Qsum fold_right]. fold (Qsum (repeat q n)). rewrite IH.
    replace (S n) with (1 + n)%nat by reflexivity.
    rewrite Qnat_add. unfold Qnat at 2. simpl. ring.
Qed.

Lemma mean_Qnat (l : list nat) :
  mean (map Qnat l) = ratio (list_sum l) (List.length l).
Proof.
  rewrite (mean_ratio _ _ (Qsum_map_Qnat l)), length_map. reflexivity.
Qed.

Lemma mean_flat (l : list nat) :
  mean (flat_map (fun c => repeat (Qnat c) c) l)
  = ratio (list_sum (map (fun c => c * c)%nat l)) (list_sum l).
Proof.
  rewrite (mean_ratio _ (list_sum (map (fun c => c * c)%nat l))).
  - f_equal. induction l as [|c l IH]; simpl; [reflexivity|].
    rewrite length_app, repeat_length, IH. reflexivity.
  - induction l as [|c l IH]; simpl; [reflexivity|].
    rewrite Qsum_app, Qsum_repeat, IH, Qnat_add, Qnat_mul. reflexivity.
Qed.

(** Two ratios of counts agree exactly when they cross-multiply. *)
Lemma ratio_eq (a b c d : nat) :
  (0 < b)%nat -> (0 < d)%nat ->
  (ratio a b = ratio c d <-> (a * d = c * b)%nat).
Proof.
  intros Hb Hd. destruct b as [|b]; [lia|]. destruct d as [|d]; [lia|].
  unfold ratio.
  pose proof (Qnat_pos_neq (S b) Hb) as Nb.
  pose proof (Qnat_pos_neq (S d) Hd) as Nd.
  rewrite <- Qnat_eq, !Qnat_mul. split.
  - intros H. inversion H as [H']. apply Qred_eq_iff in H'.
    setoid_replace (Qnat a * Qnat (S d))%Q
      with ((Qnat a / Qnat (S b)) * (Qnat (S b) * Qnat (S d)))%Q
      using relation Qeq by (field; exact Nb).
    rewrite H'. field. exact Nd.
  - intros H. f_equal. apply Qred_eq_iff.
    setoid_replace (Qnat a / Qnat (S b))%Q
      with ((Qnat a * Qnat (S d)) / (Qnat (S b) * Qnat (S d)))%Q
      using relation Qeq by (field; split; assumption).
    rewrite H. field. split; assumption.
Qed.

Lemma Zsum_of_nat (l : list nat) :
  Zsum (map Z.of_nat l) = Z.of_nat (list_sum l).
Proof.
  induction l as [|c l IH]; [reflexivity|].
  cbn [map Zsum fold_right list_sum]. fold (Zsum (map Z.of_nat l)).
  fold (list_sum l). rewrite IH. lia.
Qed.

Lemma Zsum_squares_of_nat (l : list nat) :
  Zsum (map (fun c => c * c) (map Z.of_nat l))
  = Z.of_nat (list_sum (map (fun c => c * c)%nat l)).
Proof.
  induction l as [|c l IH]; [reflexivity|].
  cbn [map Zsum fold_right list_sum].
  fold (Zsum (map (fun c => c * c) (map Z.of_nat l))).
  fold (list_sum (map (fun c => c * c)%nat l)). rewrite IH. lia.
Qed.

Lemma squares_balance_nat (l : list nat) :
  (list_sum l * list_sum l
   = list_sum (map (fun c => c * c) l) * List.length l)%nat
  <-> forall a b, In a l -> In b l -> a = b.
Proof.
  pose proof (squares_balance (map Z.of_nat l)) as H.
  rewrite Zsum_of_nat, Zsum_squares_of_nat, length_map in H.
  split.
  - intros E a b Ha Hb. apply Nat2Z.inj. apply (proj1 H).
    + lia.
    + apply in_map. exact Ha.
    + apply in_map. exact Hb.
  - intros E.
    assert (Hz : forall a b, In a (map Z.of_nat l) -> In b (map Z.of_nat l) -> a = b).
    { intros a b Ha Hb. apply in_map_iff in Ha, Hb.
      destruct Ha as [a' [<- Ha]]. destruct Hb as [b' [<- Hb]].
      f_equal. apply E; assumption. }
    apply (proj2 H) in Hz. lia.
Qed.

Lemma normalized_row_month (r : Row) :
  normalized_row r = true -> notna (month_year_str r) = true.
Proof.
  unfold normalized_row. rewrite !andb_true_iff. intros [_ H].
  destruct (month_year_str r); [reflexivity|discriminate].
Qed.

Lemma month_group_count (df : DataFrame) (m : string) :
  group_count String.eqb month_year_str dated df m
  = count_CheckInDate (filter (month_is m) df).
Proof.
  unfold group_count, count_CheckInDate. fold dated. do 2 f_equal.
  apply filter_ext. intros r. unfold has_key, month_is.
  destruct (month_year_str r) as [m'|]; [apply String.eqb_sym|reflexivity].
Qed.

(** On a pre-processed frame the monthly volumes of a site add up to its
    ticket count. *)
Lemma volumes_sum (df : DataFrame) (s : string) :
  Forall (fun r => normalized_row r = true) df ->
  list_sum (monthly_volumes df s) = site_total df s.
Proof.
  intros Hn. unfold monthly_volumes, site_month_count, site_total.
  rewrite (map_ext _ (group_count String.eqb month_year_str dated (site_rows df s)))
    by (intros m; symmetry; apply month_group_count).
  unfold site_months.
  rewrite (groups_partition String.eqb String.eqb_eq month_year_str dated).
  - unfold count_CheckInDate. fold dated. f_equal. apply filter_ext_in.
    intros r Hr. unfold site_rows in Hr. apply filter_In in Hr.
    rewrite Forall_forall in Hn.
    rewrite (normalized_row_month r (Hn r (proj1 Hr))). reflexivity.
  - apply string_keys_NoDup.
  - intros k Hk. apply In_string_keys.
    exact Hk.
Qed.

Lemma site_months_incl (df : DataFrame) (s : string) :
  incl (site_months df s) (data_months df).
Proof.
  intros m Hm. unfold site_months, data_months in *.
  rewrite In_string_keys in *.
  apply In_omap_key in Hm. destruct Hm as [r [Hr Hk]].
  apply In_omap_key. exists r. split; [|exact Hk].
  unfold site_rows in Hr. apply filter_In in Hr. apply Hr.
Qed.

(** A site is in every month of the data exactly when it has as many months
    as the data. *)
Lemma present_in_every_month_length (df : DataFrame) (s : string) :
  present_in_every_month df s
  <-> List.length (site_months df s) = List.length (data_months df).
Proof.
  assert (Hs : List.NoDup (site_months df s)).
  { apply string_keys_NoDup. }
  assert (Hd : List.NoDup (data_months df)).
  { apply string_keys_NoDup. }
  pose proof (site_months_incl df s) as Hincl.
  unfold present_in_every_month. split.
  - intros H. apply Nat.le_antisymm.
    + apply NoDup_incl_length; assumption.
    + apply NoDup_incl_length; [exact Hd|exact H].
  - intros E. apply (NoDup_length_incl Hs); [lia|exact Hincl].
Qed.

Lemma two_stage_mean_ratio (df : DataFrame) (s : string) :
  two_stage_mean df s
  = ratio (list_sum (monthly_volumes df s)) (List.length (site_months df s)).
Proof.
  unfold two_stage_mean. rewrite mean_Qnat. unfold monthly_volumes.
  rewrite length_map. reflexivity.
Qed.

Lemma site_months_nonempty (df : DataFrame) (s : string) :
  (0 < list_sum (monthly_volumes df s))%nat ->
  (0 < List.length (site_months df s))%nat.
Proof.
  unfold monthly_volumes. destruct (site_months df s); simpl; lia.
Qed.

(** C1 (as amended).  On a pre-processed record collection,
    [siteMonthlyAverage] gives, for each site, the mean of the site's
    per-(site, month) ticket counts over the months in which the site has a
    record.  For a site with a dated ticket, that mean equals the site's count
    over the number of months in the data exactly when the site has a record
    in every month, and equals the flat per-record average exactly when the
    site's monthly volumes are all equal. *)
Theorem site_monthly_average
  (datetime_of_string : string -> option (option Timestamp))
  (number_of_string : string -> option Q)
  (fetched df : DataFrame)
  (Hdf : normalize datetime_of_string number_of_string fetched = Some df) :
  siteMonthlyAverage df = map (fun s => (s, two_stage_mean df s)) (sites_of df)
  /\ forall s,
       (0 < site_total df s)%nat ->
       (two_stage_mean df s = count_over_total_months df s
        <-> present_in_every_month df s)
       /\ (two_stage_mean df s = flat_record_average df s
           <-> volumes_equal df s).
Proof.
  split; [apply avg_tickets_by_site_eq|].
  intros s Hpos.
  pose proof (normalize_normalized _ _ _ _ Hdf) as Hn.
  pose proof (volumes_sum df s Hn) as Hsum.
  assert (Hvol : (0 < list_sum (monthly_volumes df s))%nat) by lia.
  pose proof (site_months_nonempty df s Hvol) as Hk.
  pose proof (NoDup_incl_length
                (string_keys_NoDup _)
                (site_months_incl df s)) as Hle.
  fold (site_months df s) in Hle.
  rewrite two_stage_mean_ratio. split.
  - unfold count_over_total_months. rewrite <- Hsum.
    rewrite ratio_eq by lia.
    rewrite present_in_every_month_length. nia.
  - unfold flat_record_average. rewrite mean_flat.
    rewrite ratio_eq by lia.
    unfold volumes_equal. rewrite <- squares_balance_nat.
    replace (List.length (monthly_volumes df s))
      with (List.length (site_months df s))
      by (unfold monthly_volumes; rewrite length_map; reflexivity).
    reflexivity.
Qed.

Lemma site_monthly_average_witness :
  exists df,
    normalize_iso absent_even_records = Some df
    /\ siteMonthlyAverage df = [("A", Some 2%Q); ("B", Some 1%Q)]
    /\ two_stage_mean df "A" <> count_over_total_months df "A"
    /\ two_stage_mean df "A" = flat_record_average df "A".
Proof.
  eexists. split; [reflexivity|].
  match goal with
  | |- siteMonthlyAverage ?d = _ /\ _ =>
      destruct (site_monthly_average iso_date_of_string integer_of_string
                  absent_even_records d Logic.eq_refl) as [Htable Hsite]
  end.
  split; [rewrite Htable; reflexivity|].
  match type of Hsite with
  | forall s, (0 < site_total ?d s)%nat -> _ =>
      destruct (Hsite "A" ltac:(vm_compute; lia)) as [Hmonths Hflat]
  end.
  split.
  - intros E. apply Hmonths in E.
    specialize (E "2024-02" ltac:(right; left; reflexivity)).
    vm_compute in E. destruct E as [E|[E|[]]]; discriminate.
  - apply Hflat. intros a b Ha Hb. vm_compute in Ha, Hb.
    destruct Ha as [<-|[<-|[]]]; destruct Hb as [<-|[<-|[]]]; reflexivity.
Defined.

(** C1 as stated fails.  Site "A" with one ticket in January and three in
    February has unequal monthly volumes, yet its average is its count over
    the number of months; and a site that misses a month but has equal volumes
    has the flat per-record average as its average. *)
Lemma site_monthly_average_not_always_different :
  (exists df,
     normalize_iso uneven_records = Some df
     /\ monthly_volumes df "A" = [1%nat; 3%nat]
     /\ ~ volumes_equal df "A"
     /\ siteMonthlyAverage df = [("A", Some 2%Q)]
     /\ count_over_total_months df "A" = Some 2%Q)
  /\ (exists df,
        normalize_iso absent_even_records = Some df
        /\ ~ present_in_every_month df "A"
        /\ siteMonthlyAverage df = [("A", Some 2%Q); ("B", Some 1%Q)]
        /\ flat_record_average df "A" = Some 2%Q).
Proof.
  split.
  - eexists. split; [reflexivity|]. split; [reflexivity|].
    split; [|split; reflexivity].
    intros H. specialize (H 1%nat 3%nat).
    assert (E : 1%nat = 3%nat).
    { apply H; vm_compute; [left|right; left]; reflexivity. }
    discriminate.
  - eexists. split; [reflexivity|].
    split; [|split; reflexivity].
    intros H. specialize (H "2024-02" ltac:(right; left; reflexivity)).
    vm_compute in H. destruct H as [E|[E|[]]]; discriminate.
Qed.

(** * Further properties of the script *)

(** ** Pre-processing: untouched columns *)

(** X2.  The pre-processing pass keeps the rows and their order and only
    writes three columns: the date becomes the converted date, the month
    string is the month of that date, and [Site], [Subtype] and [Item] are
    left as fetched. *)
Theorem normalize_columns
  (datetime_of_string : string -> option (option Timestamp))
  (number_of_string : string -> option Q) (df df' : DataFrame)
  (Hdf : normalize datetime_of_string number_of_string df = Some df') :
  Forall2 (fun r r' =>
             to_datetime datetime_of_string (CheckInDate r) = Some (CheckInDate r')
             /\ month_year_str r' = Some (to_period_M_str (CheckInDate r'))
             /\ Site r' = Site r /\ Subtype r' = Subtype r /\ Item r' = Item r)
          df df'.
Proof.
  unfold normalize in Hdf.
  destruct (convert_dates datetime_of_string df) as [df1|] eqn:E; [|discriminate].
  inversion Hdf. subst df'. clear Hdf.
  apply convert_dates_Forall2 in E.
  induction E as [|r r1 df df1 Hr Hdf IH]; simpl; constructor; [|exact IH].
  unfold set_CheckInDate in Hr.
  destruct (to_datetime datetime_of_string (CheckInDate r)) as [d|]; [|discriminate].
  inversion Hr. simpl. repeat split; reflexivity.
Qed.

Lemma normalize_columns_witness :
  exists df',
    normalize_iso scenario_records = Some df'
    /\ Forall2 (fun r r' => Site r' = Site r /\ Item r' = Item r)
               scenario_records df'.
Proof.
  eexists. split; [reflexivity|].
  eapply Forall2_impl;
    [|exact (normalize_columns iso_date_of_string integer_of_string
               scenario_records _ Logic.eq_refl)].
  simpl. intros r r' H. split; apply H.
Defined.

(** ** Month keys *)

Lemma digit_compare (a b : Z) :
  Ascii.compare (digit a) (digit b) = (a mod 10 ?= b mod 10).
Proof.
  pose proof (Z.mod_pos_bound a 10 ltac:(lia)) as Ha.
  pose proof (Z.mod_pos_bound b 10 ltac:(lia)) as Hb.
  unfold Ascii.compare, digit, ascii_of_nat.
  rewrite !N_ascii_embedding by lia.
  rewrite <- Nat2N.inj_compare, <- Nat2Z.inj_compare, !Nat2Z.inj_add,
    !Z2Nat.id by lia.
  apply Z.add_compare_mono_l.
Qed.

Lemma four_decimal_digits (y : Z) :
  0 <= y < 10000 ->
  y = 1000 * ((y / 1000) mod 10) + 100 * ((y / 100) mod 10)
      + 10 * ((y / 10) mod 10) + y mod 10.
Proof. intros H. Z.to_euclidean_division_equations. lia. Qed.

Lemma two_decimal_digits (m : Z) :
  0 <= m < 100 -> m = 10 * ((m / 10) mod 10) + m mod 10.
Proof. intros H. Z.to_euclidean_division_equations. lia. Qed.

Ltac name_digits :=
  repeat match goal with
         | |- context [?x mod 10] =>
             let d := fresh "d" in remember (x mod 10) as d
         end.

Ltac split_comparisons :=
  repeat match goal with
         | |- context [match ?x ?= ?y with _ => _ end] =>
             destruct (Z.compare_spec x y)
         end.

(** Comparing two month strings is comparing the months. *)
Lemma period_M_str_compare (a b : Timestamp) :
  four_digit_month a -> four_digit_month b ->
  String.compare (period_M_str a) (period_M_str b)
  = (month_index a ?= month_index b).
Proof.
  unfold four_digit_month, month_index, period_M_str, four_digits, two_digits.
  intros [Hya Hma] [Hyb Hmb].
  cbv [String.append]. cbn [String.compare]. rewrite !digit_compare.
  change (Ascii.compare "-" "-") with Eq. cbv iota.
  pose proof (four_decimal_digits _ Hya) as Ea.
  pose proof (four_decimal_digits _ Hyb) as Eb.
  pose proof (two_decimal_digits (ts_month a) ltac:(lia)) as Fa.
  pose proof (two_decimal_digits (ts_month b) ltac:(lia)) as Fb.
  pose proof (Z.mod_pos_bound (ts_year a / 1000) 10 ltac:(lia)).
  pose proof (Z.mod_pos_bound (ts_year a / 100) 10 ltac:(lia)).
  pose proof (Z.mod_pos_bound (ts_year a / 10) 10 ltac:(lia)).
  pose proof (Z.mod_pos_bound (ts_year a) 10 ltac:(lia)).
  pose proof (Z.mod_pos_bound (ts_month a / 10) 10 ltac:(lia)).
  pose proof (Z.mod_pos_bound (ts_month a) 10 ltac:(lia)).
  pose proof (Z.mod_pos_bound (ts_year b / 1000) 10 ltac:(lia)).
  pose proof (Z.mod_pos_bound (ts_year b / 100) 10 ltac:(lia)).
  pose proof (Z.mod_pos_bound (ts_year b / 10) 10 ltac:(lia)).
  pose proof (Z.mod_pos_bound (ts_year b) 10 ltac:(lia)).
  pose proof (Z.mod_pos_bound (ts_month b / 10) 10 ltac:(lia)).
  pose proof (Z.mod_pos_bound (ts_month b) 10 ltac:(lia)).
  name_digits.
  split_comparisons; symmetry;
    first [apply Z.compare_eq_iff | apply Z.compare_lt_iff | apply Z.compare_gt_iff];
    lia.
Qed.

Lemma period_M_str_inj (a b : Timestamp) :
  four_digit_month a -> four_digit_month b ->
  (period_M_str a = period_M_str b <-> month_index a = month_index b).
Proof.
  intros Ha Hb. pose proof (period_M_str_compare a b Ha Hb) as H. split.
  - intros E. rewrite E in H. apply Z.compare_eq_iff. rewrite <- H.
    apply String_as_OT.cmp_eq. reflexivity.
  - intros E. apply String.compare_eq_iff. rewrite H.
    apply Z.compare_eq_iff. exact E.
Qed.

(** X3.  The month strings of line 41 sort like the months they stand for:
    for dates with a four-digit year, ["YYYY-MM"] strings compare (as Python
    compares strings) exactly as the calendar months do, and two dates get
    the same string exactly when they lie in the same month. *)
Theorem month_keys_chronological (a b : Timestamp)
  (Ha : four_digit_month a) (Hb : four_digit_month b) :
  (String.ltb (period_M_str a) (period_M_str b) = true
   <-> month_index a < month_index b)
  /\ (period_M_str a = period_M_str b <-> month_index a = month_index b).
Proof.
  split; [|apply period_M_str_inj; assumption].
  unfold String.ltb. rewrite (period_M_str_compare a b Ha Hb).
  rewrite <- Z.compare_lt_iff.
  destruct (month_index a ?= month_index b); split; congruence.
Qed.

Lemma month_keys_chronological_witness :
  String.ltb (period_M_str (mkTimestamp 2023 12 31 0))
             (period_M_str (mkTimestamp 2024 1 1 0)) = true.
Proof.
  apply (month_keys_chronological (mkTimestamp 2023 12 31 0)
           (mkTimestamp 2024 1 1 0)).
  - unfold four_digit_month. simpl. lia.
  - unfold four_digit_month. simpl. lia.
  - unfold month_index. simpl. lia.
Defined.

(** ** Monthly Breakdown: the month selector and the metrics *)

Lemma StronglySorted_snoc {A : Type} (R : A -> A -> Prop) (l : list A) (x : A) :
  StronglySorted R l -> Forall (fun y => R y x) l ->
  StronglySorted R (l ++ [x]).
Proof.
  induction 1 as [|y l Hs IH Hall]; intros Hx; simpl.
  - repeat constructor.
  - inversion Hx as [|? ? Hyx Hlx]; subst.
    constructor; [apply IH; exact Hlx|].
    apply Forall_app. split; [exact Hall|]. repeat constructor. exact Hyx.
Qed.

Lemma StronglySorted_rev {A : Type} (R : A -> A -> Prop) (l : list A) :
  StronglySorted R l -> StronglySorted (fun a b => R b a) (rev l).
Proof.
  induction 1 as [|x l Hs IH Hall]; simpl; [constructor|].
  apply StronglySorted_snoc; [exact IH|].
  apply Forall_forall. intros y Hy. apply in_rev in Hy.
  rewrite Forall_forall in Hall. apply Hall, Hy.
Qed.

(** X4.  The month selector of the Monthly Breakdown offers every month key
    of the data exactly once, in strictly descending order of the key, so the
    default choice (index 0) is the greatest key. *)
Theorem breakdown_month_options_descending (df : DataFrame) :
  StronglySorted (fun a b => string_lt b a) (breakdown_month_options df)
  /\ (forall m,
        In m (breakdown_month_options df)
        <-> exists r, In r df /\ month_year_str r = Some m)
  /\ (forall m m',
        nth_error (breakdown_month_options df) 0 = Some m ->
        In m' (breakdown_month_options df) -> m' = m \/ string_lt m' m).
Proof.
  unfold breakdown_month_options.
  pose proof (StronglySorted_rev _ _
                (string_keys_sorted (omap month_year_str df))) as Hs.
  split; [exact Hs|]. split.
  - intros m. rewrite <- in_rev, In_string_keys. apply In_omap_key.
  - intros m m' Hm Hm'.
    destruct (rev (sorted_keys String.eqb String.ltb (omap month_year_str df)))
      as [|x l]; [discriminate|].
    simpl in Hm. inversion Hm. subst x.
    destruct Hm' as [E|Hin]; [left; symmetry; exact E|right].
    inversion Hs as [|? ? _ Hall]; subst.
    rewrite Forall_forall in Hall. apply Hall, Hin.
Qed.

Lemma list_sum_rev (l : list nat) : list_sum (rev l) = list_sum l.
Proof.
  induction l as [|x l IH]; simpl; [reflexivity|].
  rewrite list_sum_app, IH. simpl. lia.
Qed.

Lemma month_rows_count (P : Row -> bool) (df : DataFrame) (m : string) :
  group_count String.eqb month_year_str P df m
  = List.length (filter P (filter (month_is m) df)).
Proof.
  unfold group_count. do 2 f_equal.
  apply filter_ext. intros r. unfold has_key, month_is.
  destruct (month_year_str r) as [m'|]; [apply String.eqb_sym|reflexivity].
Qed.

Lemma filter_true {A : Type} (l : list A) : filter (fun _ => true) l = l.
Proof. induction l as [|x l IH]; simpl; [reflexivity|]. rewrite IH. reflexivity. Qed.

Lemma normalize_length
  (datetime_of_string : string -> option (option Timestamp))
  (number_of_string : string -> option Q) (df df' : DataFrame) :
  normalize datetime_of_string number_of_string df = Some df' ->
  List.length df' = List.length df.
Proof.
  intros H. apply normalize_Hours in H.
  apply (f_equal (@List.length hours_cell)) in H.
  rewrite !length_map in H. exact H.
Qed.

(** X5.  The Total Tickets metrics of the selectable months partition the
    data: over all options of the month selector they add up to the number
    of fetched rows. *)
Theorem total_tickets_partition
  (datetime_of_string : string -> option (option Timestamp))
  (number_of_string : string -> option Q) (fetched df : DataFrame)
  (Hdf : normalize datetime_of_string number_of_string fetched = Some df) :
  list_sum (map (total_tickets df) (breakdown_month_options df))
  = List.length fetched.
Proof.
  rewrite <- (normalize_length _ _ _ _ Hdf).
  pose proof (normalize_normalized _ _ _ _ Hdf) as Hn.
  unfold breakdown_month_options. rewrite map_rev, list_sum_rev.
  rewrite (map_ext _ (group_count String.eqb month_year_str (fun _ => true) df)).
  - rewrite (groups_partition String.eqb String.eqb_eq).
    + f_equal. apply filter_all. rewrite Forall_forall in *.
      intros r Hr. rewrite (normalized_row_month r (Hn r Hr)). reflexivity.
    + apply string_keys_NoDup.
    + intros k Hk. apply In_string_keys. exact Hk.
  - intros m. rewrite month_rows_count, filter_true. reflexivity.
Qed.

Lemma total_tickets_partition_witness :
  exists df,
    normalize_iso scenario_records = Some df
    /\ breakdown_month_options df = ["2024-02"; "2024-01"]
    /\ list_sum (map (total_tickets df) (breakdown_month_options df)) = 3%nat.
Proof.
  eexists. split; [reflexivity|]. split; [reflexivity|].
  exact (total_tickets_partition iso_date_of_string integer_of_string
           scenario_records _ Logic.eq_refl).
Defined.




(** ** Monthly trend: totals and agreement with the per-month table *)

Lemma month_bins_NoDup (df : DataFrame) : List.NoDup (month_bins df).
Proof.
  unfold month_bins. destruct (dated_months df) as [|i rest]; [constructor|].
  cbv zeta. apply Finite.Injective_map_NoDup; [|apply seq_NoDup].
  intros a b H. lia.
Qed.

Lemma trend_bin_count (df : DataFrame) (i : Z) :
  trend_total_tickets (trend_bin df i)
  = group_count Z.eqb month_of_row (fun _ => true) df i.
Proof.
  simpl. rewrite in_month_dated. unfold group_count. rewrite filter_true.
  f_equal. apply filter_ext. intros r.
  unfold in_month, has_key, month_of_row.
  destruct (stamp (CheckInDate r)); simpl; [apply Z.eqb_sym|reflexivity].
Qed.

(** X7.  Every dated ticket is counted in exactly one month of the trend: the
    ticket counts of the trend rows add up to the number of rows that have a
    check-in date, and rows without one are left out. *)
Theorem trend_totals_sum (df : DataFrame) :
  list_sum (map trend_total_tickets (monthlyTrend df))
  = List.length (filter stamped df).
Proof.
  unfold monthlyTrend, monthly_data. rewrite map_map.
  rewrite (map_ext _ _ (trend_bin_count df)).
  rewrite (groups_partition Z.eqb Z.eqb_eq).
  - f_equal. apply filter_ext. intros r. unfold stamped, month_of_row.
    destruct (stamp (CheckInDate r)); reflexivity.
  - apply month_bins_NoDup.
  - intros k Hk. apply In_month_bins. exists k, k. repeat split; try lia; exact Hk.
Qed.

Lemma dict_get_keys {A : Type} (g : string -> A) (k : string) (ks : list string) :
  dict_get k (map (fun k' => (k', g k')) ks)
  = if in_dec string_dec k ks then Some (g k) else None.
Proof.
  induction ks as [|k' ks IH]; simpl; [reflexivity|].
  destruct (String.eqb k k') eqn:E.
  - apply String.eqb_eq in E. subst k'.
    destruct (string_dec k k); [reflexivity|contradiction].
  - rewrite IH. destruct (string_dec k' k) as [E'|Hne].
    + subst k'. rewrite string_eqb_refl in E. discriminate.
    + destruct (in_dec string_dec k ks); reflexivity.
Qed.

Lemma filter_none {A : Type} (f : A -> bool) (l : list A) :
  Forall (fun x => f x = false) l -> filter f l = [].
Proof.
  induction 1 as [|x l Hx Hl IH]; simpl; [reflexivity|].
  rewrite Hx. exact IH.
Qed.

(** The count of a [groupby(key)] count table at a label is the number of
    dated rows with that label. *)
Lemma count_at_groupby (key : Row -> option string) (df : DataFrame) (k : string) :
  count_at k
    (map (fun kg : string * DataFrame => (fst kg, count_CheckInDate (snd kg)))
         (groupby String.eqb String.ltb key df))
  = count_CheckInDate (filter (has_key String.eqb key k) df).
Proof.
  unfold count_at, groupby. rewrite map_map. simpl.
  rewrite (dict_get_keys
             (fun k' => count_CheckInDate (filter (has_key String.eqb key k') df))).
  destruct (in_dec string_dec k _) as [Hin|Hout]; [reflexivity|].
  replace (filter (has_key String.eqb key k) df) with (@nil Row); [reflexivity|].
  symmetry. apply filter_none. apply Forall_forall. intros r Hr.
  unfold has_key. destruct (key r) as [k'|] eqn:Ek; [|reflexivity].
  destruct (String.eqb k k') eqn:E; [|reflexivity].
  apply String.eqb_eq in E. subst k'. exfalso. apply Hout.
  apply In_string_keys, In_omap_key. exists r. split; assumption.
Qed.

Lemma period_M_str_not_NaT (t : Timestamp) : period_M_str t <> "NaT".
Proof.
  intros E. apply (f_equal String.length) in E.
  unfold period_M_str, four_digits, two_digits in E.
  cbv [String.append] in E. simpl in E. discriminate.
Qed.

Lemma month_end_index (i : Z) : month_index (month_end i) = i.
Proof.
  unfold month_index, month_end. simpl.
  pose proof (Z.div_mod i 12 ltac:(lia)). lia.
Qed.

Lemma month_index_range (t : Timestamp) :
  four_digit_month t -> 0 <= month_index t < 120000.
Proof. unfold four_digit_month, month_index. lia. Qed.

Lemma month_end_four_digit (i : Z) :
  0 <= i < 120000 -> four_digit_month (month_end i).
Proof.
  intros H. unfold four_digit_month, month_end. simpl.
  pose proof (Z.mod_pos_bound i 12 ltac:(lia)).
  split; [|lia]. split.
  - apply Z.div_pos; lia.
  - apply Z.div_lt_upper_bound; lia.
Qed.

Lemma dated_months_range (df : DataFrame) (i : Z) :
  four_digit_dates df -> In i (dated_months df) -> 0 <= i < 120000.
Proof.
  unfold four_digit_dates, dated_months. intros Hd Hi.
  apply In_omap_key in Hi. destruct Hi as [r [Hr Hk]].
  rewrite Forall_forall in Hd. specialize (Hd r Hr).
  destruct (stamp (CheckInDate r)) as [t|]; [|discriminate].
  simpl in Hk. inversion Hk. apply month_index_range. apply Hd. reflexivity.
Qed.

(** On a pre-processed row, having the month string of bin [i] is being
    dated in month [i]. *)
Lemma month_string_in_month (r : Row) (i : Z) :
  normalized_row r = true ->
  (forall t, stamp (CheckInDate r) = Some t -> four_digit_month t) ->
  0 <= i < 120000 ->
  has_key String.eqb month_year_str (period_M_str (month_end i)) r = in_month i r.
Proof.
  intros Hn Ht Hi. unfold normalized_row in Hn.
  rewrite !andb_true_iff in Hn. destruct Hn as [_ Hm].
  unfold has_key, in_month.
  destruct (month_year_str r) as [m|]; [|discriminate].
  apply String.eqb_eq in Hm. subst m. unfold to_period_M_str.
  destruct (stamp (CheckInDate r)) as [t|].
  - pose proof (period_M_str_inj (month_end i) t
                  (month_end_four_digit i Hi) (Ht t Logic.eq_refl)) as Hinj.
    rewrite month_end_index in Hinj.
    destruct (String.eqb (period_M_str (month_end i)) (period_M_str t)) eqn:E.
    + apply String.eqb_eq, Hinj in E. symmetry. apply Z.eqb_eq. lia.
    + symmetry. apply Z.eqb_neq. intros E'.
      assert (Hs : period_M_str (month_end i) = period_M_str t)
        by (apply Hinj; lia).
      rewrite Hs, string_eqb_refl in E. discriminate.
  - apply String.eqb_neq. apply period_M_str_not_NaT.
Qed.

(** X8.  The two monthly charts agree: on pre-processed data with four-digit
    years, the ticket count of every trend row is the count that the
    Ticket Count per Month table has for that month's string, or 0 when the
    table has no such month. *)
Theorem trend_matches_tickets_by_month
  (datetime_of_string : string -> option (option Timestamp))
  (number_of_string : string -> option Q) (fetched df : DataFrame)
  (Hdf : normalize datetime_of_string number_of_string fetched = Some df)
  (Hdates : four_digit_dates df) :
  Forall (fun row =>
            trend_total_tickets row
            = count_at (period_M_str (trend_CheckInDate row)) (tickets_by_month df))
         (monthlyTrend df).
Proof.
  pose proof (normalize_normalized _ _ _ _ Hdf) as Hn.
  apply Forall_forall. intros row Hrow.
  unfold monthlyTrend, monthly_data in Hrow. apply in_map_iff in Hrow.
  destruct Hrow as [i [<- Hi]].
  assert (Hrange : 0 <= i < 120000).
  { apply In_month_bins in Hi. destruct Hi as [a [b [Ha [Hb Hab]]]].
    pose proof (dated_months_range df a Hdates Ha).
    pose proof (dated_months_range df b Hdates Hb). lia. }
  unfold tickets_by_month. rewrite count_at_groupby. simpl.
  f_equal. symmetry. apply filter_ext_in. intros r Hr.
  unfold four_digit_dates in Hdates. rewrite Forall_forall in Hn, Hdates.
  apply month_string_in_month; [apply Hn, Hr|apply Hdates, Hr|exact Hrange].
Qed.

Lemma trend_matches_tickets_by_month_witness :
  normalize_iso gap_records = Some gap_frame
  /\ map trend_total_tickets (monthlyTrend gap_frame) = [1%nat; 0%nat; 1%nat]
  /\ Forall (fun row =>
               trend_total_tickets row
               = count_at (period_M_str (trend_CheckInDate row))
                          (tickets_by_month gap_frame))
            (monthlyTrend gap_frame).
Proof.
  split; [reflexivity|]. split; [reflexivity|].
  apply (trend_matches_tickets_by_month iso_date_of_string integer_of_string
           gap_records gap_frame Logic.eq_refl).
  unfold four_digit_dates, four_digit_month, gap_frame.
  repeat (apply Forall_cons; [intros t Ht; inversion Ht; simpl; lia|]).
  apply Forall_nil.
Defined.

(** ** Subtype selector and site drill-down *)

Lemma sorted_keys_id (l : list string) :
  StronglySorted string_lt l -> sorted_keys String.eqb String.ltb l = l.
Proof.
  intros H. apply (sorted_ext String.ltb string_ltb_irrefl string_ltb_trans).
  - apply string_keys_sorted.
  - exact H.
  - intros x. apply In_string_keys.
Qed.

Lemma count_table_keys (key : Row -> option string) (df : DataFrame) :
  map fst
    (map (fun kg : string * DataFrame => (fst kg, count_CheckInDate (snd kg)))
         (groupby String.eqb String.ltb key df))
  = sorted_keys String.eqb String.ltb (omap key df).
Proof. rewrite map_map. simpl. apply map_fst_groupby. Qed.

(** X11.  The subtype dropdown is "All Subtypes" followed by the subtypes of
    the pie table in the table's own order (sorting them again changes
    nothing); these are exactly the subtypes of the selected records that
    have both a subtype and an item. *)
Theorem subtype_options_follow_pie (df : DataFrame) (selected : string) :
  subtype_options df selected
  = All_Subtypes :: map fst (data_to_chart_subtype df selected)
  /\ (forall s,
        In s (map fst (data_to_chart_subtype df selected))
        <-> exists r,
              In r df /\ Subtype r = Some s /\ notna (Item r) = true
              /\ in_selection selected r = true).
Proof.
  unfold subtype_options, data_to_chart_subtype.
  rewrite count_table_keys. split.
  - f_equal. apply sorted_keys_id, string_keys_sorted.
  - intros s. rewrite In_string_keys, In_omap_key, monthly_filtered_data_eq.
    split.
    + intros [r [Hr Hs]]. apply filter_In in Hr. destruct Hr as [Hr Hp].
      rewrite !andb_true_iff in Hp. exists r. tauto.
    + intros [r [Hr [Hs [Hi Hsel]]]]. exists r. split; [|exact Hs].
      apply filter_In. split; [exact Hr|]. rewrite Hs, Hi, Hsel. reflexivity.
Qed.

Lemma list_index_lookup (s : string) (l : list string) :
  mem_string s l = true -> nth_error l (list_index s l) = Some s.
Proof.
  unfold mem_string. induction l as [|x l IH]; simpl; [discriminate|].
  rewrite (String.eqb_sym s x).
  destruct (String.eqb x s) eqn:E.
  - intros _. apply String.eqb_eq in E. subst. reflexivity.
  - simpl. exact IH.
Qed.

(** X12.  The initial index computed from the chart's subtype always points
    at an option: at that subtype when it is a non-empty string found among
    the options (at its first occurrence), at the first option otherwise. *)
Theorem initial_index_points (from_chart : option string) (options : list string) :
  nth_error options (initial_index from_chart options)
  = match from_chart with
    | Some s =>
        if negb (String.eqb s "") && mem_string s options
        then Some s
        else nth_error options 0
    | None => nth_error options 0
    end.
Proof.
  unfold initial_index. destruct from_chart as [s|]; [|reflexivity].
  destruct (negb (String.eqb s "")); simpl; [|reflexivity].
  destruct (mem_string s options) eqn:E; [|reflexivity].
  apply list_index_lookup. exact E.
Qed.

Lemma subtype_is_has_key (s : string) (r : Row) :
  has_key String.eqb Subtype s r = subtype_is s r.
Proof.
  unfold has_key, subtype_is.
  destruct (Subtype r); [apply String.eqb_sym|reflexivity].
Qed.

Lemma df_empty_false (df : DataFrame) :
  df_empty df = false <-> exists r, In r df.
Proof.
  destruct df as [|r df]; simpl.
  - split; [discriminate|]. intros [r []].
  - split; [|reflexivity]. intros _. exists r. left. reflexivity.
Qed.

(** X13.  For a chosen subtype other than "All Subtypes", the right column
    shows the site chart exactly when the subtype is a slice of the pie, and
    the "No site data" message exactly when it is not. *)
Theorem site_panel_cases (df : DataFrame) (month subtype : string)
  (Hsub : subtype <> All_Subtypes) :
  (In subtype (map fst (data_to_chart_subtype df month))
   -> site_panel df month subtype = SiteChart (site_breakdown df month subtype))
  /\ (~ In subtype (map fst (data_to_chart_subtype df month))
      -> site_panel df month subtype = SiteInfo no_site_data).
Proof.
  unfold site_panel, data_to_chart_subtype.
  rewrite (proj2 (String.eqb_neq subtype All_Subtypes) Hsub). simpl.
  rewrite count_table_keys, In_string_keys, In_omap_key.
  destruct (df_empty (filtered_by_subtype df month subtype)) eqn:E; simpl.
  - split; [|reflexivity]. intros [r [Hr Hs]]. exfalso.
    assert (Hin : In r (filtered_by_subtype df month subtype)).
    { apply filter_In. split; [exact Hr|].
      unfold subtype_is. rewrite Hs. apply string_eqb_refl. }
    destruct (filtered_by_subtype df month subtype); [destruct Hin|discriminate].
  - split; [reflexivity|]. intros Hout. exfalso. apply Hout.
    apply df_empty_false in E. destruct E as [r Hr].
    apply filter_In in Hr. destruct Hr as [Hr Hs]. exists r. split; [exact Hr|].
    unfold subtype_is in Hs. destruct (Subtype r) as [s'|]; [|discriminate].
    apply String.eqb_eq in Hs. subst. reflexivity.
Qed.

Lemma site_panel_cases_witness :
  site_panel subtype_frame All_Tickets "Repair"
  = SiteChart [("A", 1%nat); ("B", 1%nat)]
  /\ site_panel subtype_frame "2024-01" "Upgrade" = SiteInfo no_site_data.
Proof.
  split.
  - rewrite (proj1 (site_panel_cases subtype_frame All_Tickets "Repair"
                      ltac:(discriminate))); [reflexivity|].
    right. left. reflexivity.
  - apply (site_panel_cases subtype_frame "2024-01" "Upgrade" ltac:(discriminate)).
    simpl. intros [H|[H|[]]]; discriminate.
Defined.

Lemma filter_length_le {A : Type} (f g : A -> bool) (l : list A) :
  (forall x, f x = true -> g x = true) ->
  (List.length (filter f l) <= List.length (filter g l))%nat.
Proof.
  intros H. induction l as [|x l IH]; simpl; [lia|].
  destruct (f x) eqn:E.
  - rewrite (H x E). simpl. lia.
  - destruct (g x); simpl; lia.
Qed.

(** X14.  The bars of the site drill-down never exceed the pie slice they
    detail: the site counts for a subtype add up to at most the subtype's
    count in the pie table, and to exactly that count when every selected
    record of the subtype has a site. *)
Theorem site_breakdown_within_slice (df : DataFrame) (month subtype : string) :
  (sum_counts (site_breakdown df month subtype)
   <= count_at subtype (data_to_chart_subtype df month))%nat
  /\ (Forall (fun r => notna (Site r) = true) (filtered_by_subtype df month subtype)
      -> sum_counts (site_breakdown df month subtype)
         = count_at subtype (data_to_chart_subtype df month)).
Proof.
  unfold site_breakdown, data_to_chart_subtype.
  rewrite sum_counts_groupby, count_at_groupby.
  unfold filtered_by_subtype.
  rewrite (filter_ext _ _ (subtype_is_has_key subtype)).
  unfold count_CheckInDate. fold dated. split.
  - apply filter_length_le. intros r H. apply andb_true_iff in H. apply H.
  - intros Hall. f_equal. apply filter_ext_in. intros r Hr.
    rewrite Forall_forall in Hall. rewrite (Hall r Hr). reflexivity.
Qed.

Lemma site_breakdown_within_slice_witness :
  sum_counts (site_breakdown subtype_frame "2024-01" "Repair") = 1%nat
  /\ count_at "Repair" (data_to_chart_subtype subtype_frame "2024-01") = 1%nat.
Proof.
  rewrite (proj2 (site_breakdown_within_slice subtype_frame "2024-01" "Repair")).
  - split; reflexivity.
  - repeat constructor.
Defined.

(** ** What a run of the script shows *)

Lemma selectbox_first (options : list string) (chosen : option string) :
  options <> [] -> exists v, selectbox options 0 chosen = Some v.
Proof.
  intros Hne. unfold selectbox.
  destruct options as [|x l]; [contradiction|].
  destruct chosen as [v|]; [|exists x; reflexivity].
  destruct (mem_string v (x :: l)); [exists v|exists x]; reflexivity.
Qed.

Lemma breakdown_month_options_nonempty (df : DataFrame) :
  df <> [] -> Forall (fun r => normalized_row r = true) df ->
  breakdown_month_options df <> [].
Proof.
  intros Hne Hn. destruct df as [|r df]; [contradiction|].
  inversion Hn as [|? ? Hr _]; subst.
  apply normalized_row_month in Hr.
  destruct (month_year_str r) as [m|] eqn:Em; [|discriminate].
  assert (Hin : In m (breakdown_month_options (r :: df))).
  { unfold breakdown_month_options. rewrite <- in_rev, In_string_keys, In_omap_key.
    exists r. split; [left; reflexivity|exact Em]. }
  intros E. rewrite E in Hin. destruct Hin.
Qed.

Lemma monthly_data_checked_Some (df : DataFrame) :
  Exists (fun r => stamped r = true) df ->
  monthly_data_checked df = Some (monthly_data df).
Proof.
  intros H. unfold monthly_data_checked.
  replace (existsb (fun r => notna (stamp (CheckInDate r))) df) with true;
    [reflexivity|].
  symmetry. apply existsb_exists. apply Exists_exists in H. exact H.
Qed.

Lemma monthly_data_checked_None (df : DataFrame) :
  monthly_data_checked df = None -> Forall (fun r => stamped r = false) df.
Proof.
  unfold monthly_data_checked.
  destruct (existsb (fun r => notna (stamp (CheckInDate r))) df) eqn:E;
    [discriminate|].
  intros _. apply Forall_forall. intros r Hr.
  destruct (stamped r) eqn:Es; [|reflexivity].
  assert (H : existsb (fun r => notna (stamp (CheckInDate r))) df = true)
    by (apply existsb_exists; exists r; split; assumption).
  congruence.
Qed.

Lemma stamped_or_not (df : DataFrame) :
  Exists (fun r => stamped r = true) df \/ Forall (fun r => stamped r = false) df.
Proof.
  destruct (monthly_data_checked df) eqn:E.
  - left. unfold monthly_data_checked in E.
    destruct (existsb (fun r => notna (stamp (CheckInDate r))) df) eqn:Ex;
      [|discriminate].
    apply existsb_exists in Ex. apply Exists_exists. exact Ex.
  - right. apply monthly_data_checked_None. exact E.
Qed.

(** On a pre-processed frame the run gets through every selectbox: it raises
    only at line 96, and only when no row has a timestamp. *)
Lemma render_outcome (s : Session) (df : DataFrame) :
  session_state s !! "selection" = Some SessNone ->
  df <> [] -> Forall (fun r => normalized_row r = true) df ->
  match snd (render s df) with
  | Rendered v => Exists (fun r => stamped r = true) df
  | Raised => Forall (fun r => stamped r = false) df
  | Warned _ => False
  end.
Proof.
  intros Hsel Hne Hn. unfold render.
  destruct (selectbox_first (breakdown_month_options df)
              (widget_value (session_state s) "breakdown_month_selector")
              (breakdown_month_options_nonempty df Hne Hn)) as [m ->].
  cbv zeta.
  destruct (monthly_data_checked df) as [trend|] eqn:Et;
    [|simpl; apply monthly_data_checked_None; exact Et].
  destruct (selectbox_first (pie_month_options df) (pie_month_widget s)
              ltac:(discriminate)) as [p ->].
  rewrite from_chart_None
    by (rewrite keep_widget_selection by discriminate; exact Hsel).
  simpl initial_index. rewrite selectbox_subtype. simpl.
  destruct (stamped_or_not df) as [H|H]; [exact H|].
  exfalso. unfold monthly_data_checked in Et.
  destruct (existsb (fun r => notna (stamp (CheckInDate r))) df) eqn:Ex;
    [|discriminate].
  apply existsb_exists in Ex. destruct Ex as [r [Hr Hs]].
  rewrite Forall_forall in H. specialize (H r Hr). unfold stamped in H.
  congruence.
Qed.

(** X15.  In a session whose chart selection was never set, a run shows the
    warning exactly for an empty fetch.  For a non-empty fetch it ends in an
    uncaught exception exactly when the pre-processing pass raises or no
    fetched row has a check-in date (line 96 has nothing to bin), and it
    renders all sections otherwise: no selectbox comes back without a
    value. *)
Theorem script_outcome
  (datetime_of_string : string -> option (option Timestamp))
  (number_of_string : string -> option Q)
  (s : Session) (fetched : DataFrame)
  (Hs : selection_unset (session_state s)) :
  match snd (script datetime_of_string number_of_string s fetched) with
  | Warned message => fetched = [] /\ message = no_data_warning
  | Raised =>
      fetched <> []
      /\ (normalize datetime_of_string number_of_string fetched = None
          \/ exists df,
               normalize datetime_of_string number_of_string fetched = Some df
               /\ Forall (fun r => stamped r = false) df)
  | Rendered v =>
      fetched <> []
      /\ exists df,
           normalize datetime_of_string number_of_string fetched = Some df
           /\ Exists (fun r => stamped r = true) df
  end.
Proof.
  apply init_selection_lookup in Hs. unfold script.
  destruct fetched as [|r0 rest]; [simpl; split; reflexivity|].
  set (fetched := r0 :: rest). simpl negb. cbv iota.
  destruct (normalize datetime_of_string number_of_string fetched) as [df|] eqn:E.
  - assert (Hne : df <> []).
    { apply normalize_length in E. destruct df; [discriminate|discriminate]. }
    pose proof (render_outcome
                  {| session_state := init_selection (session_state s);
                     pie_month_widget := pie_month_widget s |}
                  df Hs Hne (normalize_normalized _ _ _ _ E)) as H.
    destruct (snd (render
                     {| session_state := init_selection (session_state s);
                        pie_month_widget := pie_month_widget s |} df)).
    + split; [discriminate|]. right. exists df. split; [reflexivity|exact H].
    + destruct H.
    + split; [discriminate|]. exists df. split; [reflexivity|exact H].
  - simpl. split; [discriminate|]. left. reflexivity.
Qed.

Lemma script_outcome_witness :
  (exists v,
     snd (script iso_date_of_string integer_of_string new_session scenario_records)
     = Rendered v)
  /\ snd (script iso_date_of_string integer_of_string new_session
            [fetched_row "" (HoursNum 1) (Some "A") None None])
     = Raised.
Proof.
  assert (Hnew : selection_unset (session_state new_session))
    by (left; apply lookup_empty).
  split.
  - pose proof (script_outcome iso_date_of_string integer_of_string new_session
                  scenario_records Hnew) as H.
    destruct (snd (script iso_date_of_string integer_of_string new_session
                     scenario_records)) as [|m|v].
    + exfalso. destruct H as [_ [H|[df [E H]]]]; [discriminate|].
      inversion E. subst df. inversion H as [|? ? H1 _]. discriminate.
    + destruct H as [H _]. discriminate.
    + exists v. reflexivity.
  - pose proof (script_outcome iso_date_of_string integer_of_string new_session
                  [fetched_row "" (HoursNum 1) (Some "A") None None] Hnew) as H.
    destruct (snd (script iso_date_of_string integer_of_string new_session
                     [fetched_row "" (HoursNum 1) (Some "A") None None]))
      as [|m|v].
    + reflexivity.
    + destruct H as [H _]. discriminate.
    + exfalso. destruct H as [_ [df [E H]]].
      inversion E. subst df. inversion H as [? ? H1|? ? H1]; [discriminate|].
      inversion H1.
Defined.

(** ** Average Ticket Count per Site: the table *)

Lemma sites_of_months (df : DataFrame) (s : string) :
  In s (sites_of df) -> site_months df s <> [].
Proof.
  unfold sites_of. rewrite In_string_keys, In_omap_key.
  intros [r [Hr Hk]].
  destruct (site_month_key r) as [[s' m]|] eqn:Ek; [|discriminate].
  simpl in Hk. inversion Hk. subst s'.
  apply site_month_key_Some in Ek. destruct Ek as [Hs Hm].
  assert (Hin : In m (site_months df s)).
  { unfold site_months. apply In_string_keys, In_omap_key.
    exists r. split; [|exact Hm].
    apply filter_In. split; [exact Hr|]. apply site_is_true, Hs. }
  intros E. rewrite E in Hin. destruct Hin.
Qed.

Lemma site_month_count_dated (df : DataFrame) (s m : string) :
  Forall (fun r => dated r = true) df ->
  In m (site_months df s) -> (1 <= site_month_count df s m)%nat.
Proof.
  intros Hd Hm. unfold site_months in Hm.
  rewrite In_string_keys, In_omap_key in Hm. destruct Hm as [r [Hr Hk]].
  unfold site_month_count, count_CheckInDate. fold dated.
  assert (Hin : In r (filter dated (filter (month_is m) (site_rows df s)))).
  { apply filter_In. split.
    - apply filter_In. split; [exact Hr|].
      unfold month_is. rewrite Hk. apply string_eqb_refl.
    - rewrite Forall_forall in Hd. apply Hd.
      unfold site_rows in Hr. apply filter_In in Hr. apply Hr. }
  destruct (filter dated (filter (month_is m) (site_rows df s)));
    [destruct Hin|simpl; lia].
Qed.

Lemma list_sum_ge_length (l : list nat) :
  Forall (fun c => (1 <= c)%nat) l -> (List.length l <= list_sum l)%nat.
Proof. induction 1 as [|c l Hc Hl IH]; simpl; lia. Qed.

Lemma ratio_bounds (a b : nat) :
  (0 < b)%nat ->
  exists q, ratio a b = Some q /\ (0 <= q)%Q /\ ((b <= a)%nat -> (1 <= q)%Q).
Proof.
  intros Hb. destruct b as [|b]; [lia|].
  exists (Qred (Qnat a / Qnat (S b))). split; [reflexivity|].
  assert (Hpos : (0 < Qnat (S b))%Q).
  { unfold Qnat, Qlt. simpl. lia. }
  rewrite Qred_correct. split.
  - apply Qle_shift_div_l; [exact Hpos|]. rewrite Qmult_0_l.
    unfold Qnat, Qle. simpl. lia.
  - intros Hle. apply Qle_shift_div_l; [exact Hpos|]. rewrite Qmult_1_l.
    unfold Qnat. rewrite <- Zle_Qle. lia.
Qed.

(** X10.  The Avg. Ticket Count per Site table has one row per site, in
    strictly ascending order of the site label, and every average in it is a
    number (never [NaN]) that is at least 0, and at least 1 when every record
    has a check-in date. *)
Theorem avg_tickets_by_site_rows (df : DataFrame) :
  StronglySorted string_lt (map fst (avg_tickets_by_site df))
  /\ Forall (fun row =>
               exists q,
                 snd row = Some q /\ (0 <= q)%Q
                 /\ (Forall (fun r => dated r = true) df -> (1 <= q)%Q))
            (avg_tickets_by_site df).
Proof.
  rewrite avg_tickets_by_site_eq. split.
  - rewrite map_map. simpl. rewrite map_id. apply string_keys_sorted.
  - apply Forall_forall. intros row Hrow. apply in_map_iff in Hrow.
    destruct Hrow as [s [<- Hs]]. simpl.
    pose proof (sites_of_months df s Hs) as Hne.
    rewrite two_stage_mean_ratio.
    destruct (ratio_bounds (list_sum (monthly_volumes df s))
                (List.length (site_months df s))) as [q [Hq [H0 H1]]].
    { destruct (site_months df s); [contradiction|simpl; lia]. }
    exists q. split; [exact Hq|]. split; [exact H0|].
    intros Hd. apply H1.
    replace (List.length (site_months df s))
      with (List.length (monthly_volumes df s))
      by (unfold monthly_volumes; apply length_map).
    apply list_sum_ge_length. unfold monthly_volumes.
    apply Forall_forall. intros c Hc. apply in_map_iff in Hc.
    destruct Hc as [m [<- Hm]]. apply site_month_count_dated; assumption.
Qed.

Lemma avg_tickets_by_site_rows_witness :
  Forall (fun row => exists q, snd row = Some q /\ (1 <= q)%Q)
         (avg_tickets_by_site subtype_frame).
Proof.
  eapply Forall_impl;
    [|exact (proj2 (avg_tickets_by_site_rows subtype_frame))].
  intros row [q [Hq [_ H1]]]. exists q. split; [exact Hq|].
  apply H1. repeat constructor.
Defined.

(** ** Records without a check-in date *)

Lemma NaT_not_before_month (t : Timestamp) :
  String.ltb "NaT" (period_M_str t) = false.
Proof.
  unfold String.ltb, period_M_str, four_digits.
  cbv [String.append]. cbn [String.compare].
  replace (Ascii.compare "N" (digit (ts_year t / 1000))) with Gt; [reflexivity|].
  symmetry. unfold Ascii.compare, digit, ascii_of_nat.
  pose proof (Z.mod_pos_bound (ts_year t / 1000) 10 ltac:(lia)) as Hd.
  rewrite N_ascii_embedding by lia.
  apply N.compare_gt_iff. simpl. lia.
Qed.

(** X17.  A record without a check-in date gets the month key "NaT", which
    sorts after every "YYYY-MM" key: as soon as one fetched record has no
    date, "NaT" is the first option of the Monthly Breakdown selector, that
    is, its default month. *)
Theorem undated_row_leads_selector
  (datetime_of_string : string -> option (option Timestamp))
  (number_of_string : string -> option Q) (fetched df : DataFrame)
  (Hdf : normalize datetime_of_string number_of_string fetched = Some df)
  (Hnull : Exists (fun r => CheckInDate r = DateNull) df) :
  nth_error (breakdown_month_options df) 0 = Some "NaT".
Proof.
  pose proof (normalize_normalized _ _ _ _ Hdf) as Hn.
  rewrite Forall_forall in Hn.
  assert (Hkey : forall m, In m (breakdown_month_options df) ->
                           m = "NaT" \/ exists t, m = period_M_str t).
  { intros m Hm. unfold breakdown_month_options in Hm.
    rewrite <- in_rev, In_string_keys, In_omap_key in Hm.
    destruct Hm as [r [Hr Hm]]. specialize (Hn r Hr).
    unfold normalized_row in Hn. rewrite !andb_true_iff in Hn.
    destruct Hn as [_ Hs]. rewrite Hm in Hs. apply String.eqb_eq in Hs.
    subst m. unfold to_period_M_str.
    destruct (stamp (CheckInDate r)) as [t|]; [right; exists t|left]; reflexivity. }
  assert (HNaT : In "NaT" (breakdown_month_options df)).
  { apply Exists_exists in Hnull. destruct Hnull as [r [Hr Hd]].
    unfold breakdown_month_options.
    rewrite <- in_rev, In_string_keys, In_omap_key. exists r. split; [exact Hr|].
    specialize (Hn r Hr). unfold normalized_row in Hn.
    rewrite !andb_true_iff in Hn. destruct Hn as [_ Hs].
    destruct (month_year_str r) as [m|]; [|discriminate].
    apply String.eqb_eq in Hs. subst m. rewrite Hd. reflexivity. }
  pose proof (StronglySorted_rev _ _
                (string_keys_sorted (omap month_year_str df))) as Hsorted.
  fold (breakdown_month_options df) in Hsorted.
  destruct (breakdown_month_options df) as [|m l]; [destruct HNaT|].
  simpl. f_equal.
  destruct (Hkey m (or_introl Logic.eq_refl)) as [E|[t E]]; [exact E|].
  exfalso. destruct HNaT as [E'|Hin];
    [rewrite E in E'; exact (period_M_str_not_NaT t E')|].
  inversion Hsorted as [|? ? _ Hall]; subst.
  rewrite Forall_forall in Hall. specialize (Hall _ Hin).
  unfold string_lt in Hall. rewrite NaT_not_before_month in Hall. discriminate.
Qed.

Lemma undated_row_leads_selector_witness :
  normalize_iso undated_records = Some undated_frame
  /\ nth_error (breakdown_month_options undated_frame) 0 = Some "NaT".
Proof.
  split; [reflexivity|].
  apply (undated_row_leads_selector iso_date_of_string integer_of_string
           undated_records undated_frame Logic.eq_refl).
  apply Exists_cons_tl, Exists_cons_hd. reflexivity.
Defined.

(** ** The monthly pies and the all-tickets pie *)

Lemma month_key_not_All_Tickets (r : Row) :
  normalized_row r = true -> month_year_str r <> Some All_Tickets.
Proof.
  unfold normalized_row. rewrite !andb_true_iff. intros [_ Hm] E.
  rewrite E in Hm. apply String.eqb_eq in Hm.
  apply (f_equal String.length) in Hm. unfold to_period_M_str in Hm.
  destruct (stamp (CheckInDate r)) as [t|]; [|discriminate].
  unfold period_M_str, four_digits, two_digits in Hm.
  cbv [String.append] in Hm. simpl in Hm. discriminate.
Qed.

Lemma monthly_slice_count (df : DataFrame) (m s : string) :
  m <> All_Tickets ->
  count_at s (data_to_chart_subtype df m)
  = group_count String.eqb month_year_str
      (fun r => has_key String.eqb Subtype s r && dated r)
      (filtered_tickets df) m.
Proof.
  intros Hm. unfold data_to_chart_subtype. rewrite count_at_groupby.
  unfold monthly_filtered_data.
  rewrite (proj2 (String.eqb_neq m All_Tickets) Hm). simpl.
  rewrite month_rows_count. unfold count_CheckInDate. fold dated.
  rewrite filter_filter. reflexivity.
Qed.

(** X16.  The pies are consistent across the month selector: every slice of
    the "All Tickets" pie is the sum of that subtype's slices in the pies of
    the months offered by the selector. *)
Theorem monthly_pies_add_up (df : DataFrame) (subtype : string)
  (Hdf : Forall (fun r => normalized_row r = true) df) :
  list_sum
    (map (fun m => count_at subtype (data_to_chart_subtype df m))
         (tl (pie_month_options df)))
  = count_at subtype (data_to_chart_subtype df All_Tickets).
Proof.
  assert (Hft : Forall (fun r => normalized_row r = true) (filtered_tickets df)).
  { rewrite Forall_forall in *. intros r Hr. apply Hdf.
    unfold filtered_tickets in Hr. apply filter_In in Hr. apply Hr. }
  simpl tl.
  rewrite (map_ext_in _
             (group_count String.eqb month_year_str
                (fun r => has_key String.eqb Subtype subtype r && dated r)
                (filtered_tickets df))).
  - rewrite (groups_partition String.eqb String.eqb_eq).
    + unfold data_to_chart_subtype. rewrite count_at_groupby.
      unfold monthly_filtered_data. rewrite string_eqb_refl. simpl.
      unfold count_CheckInDate. fold dated. rewrite filter_filter.
      f_equal. apply filter_ext_in. intros r Hr.
      rewrite Forall_forall in Hft.
      rewrite (normalized_row_month r (Hft r Hr)). reflexivity.
    + apply string_keys_NoDup.
    + intros k Hk. apply In_string_keys. exact Hk.
  - intros m Hm. apply monthly_slice_count.
    rewrite In_string_keys, In_omap_key in Hm. destruct Hm as [r [Hr Hk]].
    rewrite Forall_forall in Hft. intros E. subst m.
    exact (month_key_not_All_Tickets r (Hft r Hr) Hk).
Qed.

Lemma monthly_pies_add_up_witness :
  pie_month_options subtype_frame = [All_Tickets; "2024-01"; "2024-02"]
  /\ count_at "Repair" (data_to_chart_subtype subtype_frame All_Tickets) = 3%nat
  /\ list_sum
       (map (fun m => count_at "Repair" (data_to_chart_subtype subtype_frame m))
            (tl (pie_month_options subtype_frame)))
     = 3%nat.
Proof.
  split; [reflexivity|]. split; [reflexivity|].
  rewrite (monthly_pies_add_up subtype_frame "Repair"); [reflexivity|].
  repeat constructor.
Defined.

(** ** The Total Tickets metric and the per-month table *)

Lemma normalized_row_dated (r : Row) :
  normalized_row r = true ->
  (dated r = true <-> month_year_str r <> Some "NaT").
Proof.
  unfold normalized_row, dated. rewrite !andb_true_iff. intros [[_ Hd] Hm].
  destruct (month_year_str r) as [m|]; [|discriminate].
  apply String.eqb_eq in Hm. subst m. unfold to_period_M_str.
  destruct (CheckInDate r) as [|txt|t]; simpl in *; try discriminate.
  - split; [discriminate|]. intros H. exfalso. apply H. reflexivity.
  - split; [|reflexivity]. intros _ E.
    apply (period_M_str_not_NaT t). congruence.
Qed.

(** X9.  For every month key other than "NaT", the Total Tickets metric of
    the Monthly Breakdown is the count that the Ticket Count per Month table
    shows for that month; for "NaT" the table shows 0, whatever the number of
    records without a date. *)
Theorem total_tickets_matches_month_table (df : DataFrame) (month : string)
  (Hdf : Forall (fun r => normalized_row r = true) df) :
  (month <> "NaT" -> count_at month (tickets_by_month df) = total_tickets df month)
  /\ count_at "NaT" (tickets_by_month df) = 0%nat.
Proof.
  rewrite Forall_forall in Hdf.
  assert (Hcount : forall m,
            count_at m (tickets_by_month df)
            = List.length (filter dated (filter (month_is m) df))).
  { intros m. unfold tickets_by_month. rewrite count_at_groupby.
    unfold count_CheckInDate. fold dated. do 2 f_equal.
    apply filter_ext. intros r. unfold has_key, month_is.
    destruct (month_year_str r); [apply String.eqb_sym|reflexivity]. }
  split.
  - intros Hm. rewrite Hcount. unfold total_tickets, selected_breakdown_df.
    f_equal. apply filter_all. apply Forall_forall. intros r Hr.
    apply filter_In in Hr. destruct Hr as [Hr Hk].
    apply (normalized_row_dated r (Hdf r Hr)).
    unfold month_is in Hk. destruct (month_year_str r) as [m'|]; [|discriminate].
    apply String.eqb_eq in Hk. subst m'. congruence.
  - rewrite Hcount. rewrite filter_none; [reflexivity|].
    apply Forall_forall. intros r Hr.
    apply filter_In in Hr. destruct Hr as [Hr Hk].
    destruct (dated r) eqn:Ed; [|reflexivity].
    apply (normalized_row_dated r (Hdf r Hr)) in Ed.
    unfold month_is in Hk. destruct (month_year_str r) as [m'|]; [|discriminate].
    apply String.eqb_eq in Hk. subst m'. exfalso. apply Ed. reflexivity.
Qed.

Lemma total_tickets_matches_month_table_witness :
  count_at "2024-01" (tickets_by_month undated_frame) = 1%nat
  /\ total_tickets undated_frame "NaT" = 1%nat
  /\ count_at "NaT" (tickets_by_month undated_frame) = 0%nat.
Proof.
  assert (Hn : Forall (fun r => normalized_row r = true) undated_frame)
    by (repeat constructor).
  destruct (total_tickets_matches_month_table undated_frame "2024-01" Hn)
    as [Hmonth HNaT].
  split; [rewrite Hmonth; [reflexivity|discriminate]|].
  split; [reflexivity|exact HNaT].
Defined.

Lemma breakdown_month_options_descending_witness :
  breakdown_month_options undated_frame = ["NaT"; "2024-01"]
  /\ string_lt "2024-01" "NaT".
Proof.
  split; [reflexivity|].
  destruct (breakdown_month_options_descending undated_frame) as [_ [_ H]].
  destruct (H "NaT" "2024-01" Logic.eq_refl) as [E|Hlt];
    [right; left; reflexivity|discriminate|exact Hlt].
Defined.
